(** * Resume-Ranking: the criteria-extraction and scoring pipeline

    A shallow embedding of [src/rank.py] (the [/score-resumes] endpoint and
    [get_gpt_scores]) and of [src/extract.py] ([extract_criteria_from_text],
    the document readers and the [/extract-criteria] endpoint), followed by
    the properties of the report table, of the two response parsers and of
    the two endpoints.

    Python strings are modelled as [string], the bytes of the UTF-8 encoding
    of the text; lengths, slices and [str.strip] go by characters (code
    points), and [str.lower] is modelled on the ASCII range, which decides
    the tests on file names.  Dictionaries are association lists in insertion
    order.  The
    libraries the program calls (json, ast, PyPDF2, python-docx, the OpenAI
    client) are interfaces; a reference reader for a fragment of JSON and of
    Python literals instantiates them on concrete inputs. *)

From Stdlib Require Import String Ascii List ZArith Lia Bool PrimFloat.
From Stdlib Require Import DecimalString.
Import ListNotations.
Local Open Scope list_scope.
Local Open Scope string_scope.

(* ================================================================== *)
(** * Part I. Definitions *)
(* ================================================================== *)

(** ** Python built-ins used by the program *)
Module Py.

(** The line feed and the double quote, which the prompts and the JSON texts
    contain. *)
Definition LF : string := String (ascii_of_nat 10) EmptyString.
Definition DQ : string := String (ascii_of_nat 34) EmptyString.

(** [c.lower()] on the ASCII range. *)
Definition lower_char (c : ascii) : ascii :=
  let n := nat_of_ascii c in
  if (65 <=? n)%nat && (n <=? 90)%nat then ascii_of_nat (n + 32) else c.

(** [s.lower()]. *)
Fixpoint lower (s : string) : string :=
  match s with
  | EmptyString => EmptyString
  | String c s' => String (lower_char c) (lower s')
  end.

(** [s.endswith(suffix)]: some tail of [s] is [suffix]. *)
Fixpoint endswith (s suffix : string) : bool :=
  if String.eqb s suffix then true
  else match s with
       | EmptyString => false
       | String _ s' => endswith s' suffix
       end.

(** *** Characters

    A text is kept as the bytes of its UTF-8 encoding.  A character of the
    text, which is what [len], a slice and [strip] count, is a byte that is
    no continuation byte together with the continuation bytes after it.
    The tests and the replacements of substrings ([endswith], [in],
    [replace], [rsplit]) are made on the bytes: an encoded text occurs in
    another one exactly where the text does, since the encoding of a
    character never begins inside that of another. *)

(** The bytes [10xxxxxx]. *)
Definition continuation (c : ascii) : bool :=
  let n := nat_of_ascii c in (128 <=? n)%nat && (n <? 192)%nat.

(** The characters of a text, each as its bytes. *)
Fixpoint chars (s : string) : list string :=
  match s with
  | EmptyString => []
  | String c s' =>
      let following := chars s' in
      match s' with
      | EmptyString => [String c EmptyString]
      | String d _ =>
          if continuation d then
            match following with
            | ch :: rest => String c ch :: rest
            | [] => [String c EmptyString]
            end
          else String c EmptyString :: following
      end
  end.

(** A text that does not begin inside a character: it is empty or its first
    byte is no continuation byte, as in every encoded text. *)
Definition boundary (s : string) : bool :=
  match s with
  | EmptyString => true
  | String c _ => negb (continuation c)
  end.

(** [len(s)]. *)
Definition len (s : string) : nat := List.length (chars s).

(** [ord(ch)]: the code point the bytes of a character encode. *)
Definition lead_bits (n : N) : N :=
  if (n <? 128)%N then n
  else if (n <? 224)%N then (n - 192)%N
  else if (n <? 240)%N then (n - 224)%N
  else (n - 240)%N.

Fixpoint ord_from (acc : N) (s : string) : N :=
  match s with
  | EmptyString => acc
  | String c s' => ord_from (acc * 64 + (N_of_ascii c - 128))%N s'
  end.

Definition ord (ch : string) : N :=
  match ch with
  | EmptyString => 0%N
  | String c continuations => ord_from (lead_bits (N_of_ascii c)) continuations
  end.

(** [ch.isspace()]: the code points that are white space for [str]. *)
Definition isspace (ch : string) : bool :=
  let n := ord ch in
  ((9 <=? n) && (n <=? 13))%N || ((28 <=? n) && (n <=? 32))%N
  || (n =? 133)%N || (n =? 160)%N || (n =? 5760)%N
  || ((8192 <=? n) && (n <=? 8202))%N
  || (n =? 8232)%N || (n =? 8233)%N || (n =? 8239)%N || (n =? 8287)%N
  || (n =? 12288)%N.

(** The characters left after the leading white space. *)
Fixpoint lstrip_chars (cs : list string) : list string :=
  match cs with
  | [] => []
  | ch :: rest => if isspace ch then lstrip_chars rest else cs
  end.

Definition rstrip_chars (cs : list string) : list string :=
  rev (lstrip_chars (rev cs)).

Definition lstrip (s : string) : string :=
  String.concat EmptyString (lstrip_chars (chars s)).

Definition rstrip (s : string) : string :=
  String.concat EmptyString (rstrip_chars (chars s)).

(** [s.strip()]. *)
Definition strip (s : string) : string :=
  String.concat EmptyString (rstrip_chars (lstrip_chars (chars s))).

(** A slice bound [i] of a sequence of length [n]: a negative bound counts
    from the end, and every bound is clipped to [0..n]. *)
Definition slice_bound (n i : Z) : Z :=
  if (i <? 0)%Z then Z.max (n + i) 0 else Z.min i n.

(** [s[i:j]]: the characters from the bound [i] up to the bound [j]. *)
Definition slice (s : string) (i j : Z) : string :=
  let cs := chars s in
  let n := Z.of_nat (List.length cs) in
  let a := slice_bound n i in
  let b := slice_bound n j in
  String.concat EmptyString
    (firstn (Z.to_nat (b - a)) (skipn (Z.to_nat a) cs)).

(** [s.replace(old, new)] for a non-empty [old]: the text is scanned from the
    left, each match of [old] is replaced and the scan resumes after it.
    [skip] counts the characters of the current match still to be dropped. *)
Fixpoint replace_from (old new : string) (skip : nat) (s : string) : string :=
  match s with
  | EmptyString => EmptyString
  | String c s' =>
      match skip with
      | S k => replace_from old new k s'
      | O =>
          if prefix old s
          then new ++ replace_from old new (String.length old - 1) s'
          else String c (replace_from old new 0 s')
      end
  end.

Definition replace (old new s : string) : string := replace_from old new 0 s.

(** [pat in s]. *)
Fixpoint occurs (pat s : string) : bool :=
  prefix pat s ||
  match s with
  | EmptyString => false
  | String _ s' => occurs pat s'
  end.

(** No character of [s] is [c]. *)
Fixpoint avoids (c : ascii) (s : string) : bool :=
  match s with
  | EmptyString => true
  | String x s' => negb (Ascii.eqb x c) && avoids c s'
  end.

(** The split of [s] at its last [sep], if [sep] occurs in [s]. *)
Fixpoint rpartition (sep : ascii) (s : string) : option (string * string) :=
  match s with
  | EmptyString => None
  | String c s' =>
      match rpartition sep s' with
      | Some (a, b) => Some (String c a, b)
      | None => if Ascii.eqb c sep then Some (EmptyString, s') else None
      end
  end.

(** [s.rsplit(sep, 1)] for a one-character separator. *)
Definition rsplit1 (sep : ascii) (s : string) : list string :=
  match rpartition sep s with
  | Some (a, b) => [a; b]
  | None => [s]
  end.

(** [sep.join(parts)]. *)
Fixpoint join (sep : string) (parts : list string) : string :=
  match parts with
  | [] => EmptyString
  | [p] => p
  | p :: rest => p ++ sep ++ join sep rest
  end.

(** *** Values *)

(** The values [json.loads] and [ast.literal_eval] build.  A dict is the
    list of its items in insertion order; its keys are strings, as those of
    every JSON object are.  Tuples and the objects of other types are built
    by [ast.literal_eval] only, and the program only passes them on;
    [VOther] stands for a set, bytes or a complex number, kept by the name of
    its type and its [repr]. *)
#[warnings="-register-all"]
Inductive value : Type :=
| VNone
| VBool (b : bool)
| VInt (n : Z)
| VFloat (x : float)
| VStr (s : string)
| VList (items : list value)
| VDict (items : list (string * value))
| VTuple (items : list value)
| VOther (type : string) (repr : string).

(** [type(v).__name__]. *)
Definition type_name (v : value) : string :=
  match v with
  | VNone => "NoneType"
  | VBool _ => "bool"
  | VInt _ => "int"
  | VFloat _ => "float"
  | VStr _ => "str"
  | VList _ => "list"
  | VDict _ => "dict"
  | VTuple _ => "tuple"
  | VOther type _ => type
  end.

(** [isinstance(v, dict)]. *)
Definition is_dict (v : value) : bool :=
  match v with VDict _ => true | _ => false end.

(** Lookup of a key among the items of a dict. *)
Fixpoint lookup (key : string) (items : list (string * value)) : option value :=
  match items with
  | [] => None
  | (k, v) :: rest => if String.eqb k key then Some v else lookup key rest
  end.

(** [d[key] = v] on the items of a dict: an existing key keeps its place. *)
Fixpoint store (key : string) (v : value) (items : list (string * value))
  : list (string * value) :=
  match items with
  | [] => [(key, v)]
  | (k, w) :: rest =>
      if String.eqb k key then (k, v) :: rest else (k, w) :: store key v rest
  end.

(** [d.keys()]. *)
Definition keys (items : list (string * value)) : list string :=
  map fst items.

(** *** Exceptions and results *)

(** What a library call gives back: its result, or an exception of which the
    program only ever reads the text [str(e)]. *)
Inductive answer (A : Type) : Type :=
| Returned (a : A)
| Failed (message : string).
Arguments Returned {A} a.
Arguments Failed {A} message.

(** The exceptions that leave the functions of the program. *)
Inductive exn : Type :=
| HTTPException (status_code : Z) (detail : string)
| AttributeError (message : string)
| TypeError (message : string)
| IndexError (message : string)
| ValueError (message : string).

Inductive outcome (A : Type) : Type :=
| Ok (a : A)
| Raise (e : exn).
Arguments Ok {A} a.
Arguments Raise {A} e.

(** [v.get(key, default)]: only a dict has the method. *)
Definition get (v : value) (key : string) (default : value) : outcome value :=
  match v with
  | VDict items =>
      Ok (match lookup key items with Some w => w | None => default end)
  | _ =>
      Raise (AttributeError
               ("'" ++ type_name v ++ "' object has no attribute 'get'"))
  end.

(** *** The completion service and the program monad *)

Record message : Type := { role : string; content : string }.

Record request : Type :=
  { model : string;
    messages : list message;
    temperature : float;
    max_tokens : option Z }.

(** A computation of the program: it may send requests to the completion
    service, which are recorded in order, and it returns or raises. *)
Definition M (A : Type) : Type := list request -> outcome A * list request.

Definition ret {A : Type} (a : A) : M A := fun sent => (Ok a, sent).

Definition raise {A : Type} (e : exn) : M A := fun sent => (Raise e, sent).

Definition bind {A B : Type} (m : M A) (k : A -> M B) : M B :=
  fun sent =>
    match m sent with
    | (Ok a, sent') => k a sent'
    | (Raise e, sent') => (Raise e, sent')
    end.

(** A computation that sends nothing. *)
Definition pure_outcome {A : Type} (o : outcome A) : M A := fun sent => (o, sent).

End Py.

Export Py.

Declare Scope py_scope.
Delimit Scope py_scope with py.
Notation "x <- m ;; k" := (bind m (fun x => k))
  (at level 61, m at next level, right associativity) : py_scope.

Local Open Scope py_scope.

(** ** The libraries the program calls *)

(** The [json] module: [json.loads(text)] and [json.dumps(v, indent=2)]. *)
Class JsonLib : Type :=
  { json_loads : string -> answer value;
    json_dumps_indent2 : value -> string }.

(** [ast.literal_eval(text)]. *)
Class AstLib : Type :=
  { literal_eval : string -> answer value }.

(** [client.chat.completions.create(...)]: the completion, which may depend
    on the requests sent before this one, as the list of the
    [.message.content] of its choices, each a text or [None]. *)
Class CompletionService : Type :=
  { chat_completions_create :
      list request -> request -> answer (list (option string)) }.

(** The document readers: [PyPDF2.PdfReader(f).pages] with [extract_text()]
    of each page, and [docx.Document(f).paragraphs] with [.text] of each
    paragraph. *)
Class DocumentTextSource : Type :=
  { PdfReader_pages : list Byte.byte -> answer (list string);
    Document_paragraphs : list Byte.byte -> answer (list string) }.

(** Sending one request: it is recorded whether the service answers or fails. *)
Definition create `{CompletionService} (req : request)
  : M (answer (list (option string))) :=
  fun sent => (Ok (chat_completions_create sent req), (sent ++ [req])%list).

(** ** A reference reader and writer

    [Reference.loads JSON] reads the fragment of JSON made of objects, arrays,
    strings over printable ASCII with the escapes listed in [unescape],
    integers and the three literals; [Reference.loads Python] reads the same
    fragment of Python literals (either quote, [True], [False], [None]).  Text
    outside the fragment (fractions, exponents, [\u] escapes, tuples, trailing
    commas) is rejected, and the message of a rejection is not the library's
    wording.  The theorems of Part II hold for every [JsonLib] and [AstLib];
    the reference instances serve to run the program on concrete texts inside
    the fragment. *)
Module Reference.

Inductive dialect : Type := JSON | Python.

Definition is_ws (c : ascii) : bool :=
  let n := nat_of_ascii c in
  (n =? 32)%nat || (n =? 9)%nat || (n =? 10)%nat || (n =? 13)%nat.

Fixpoint skip_ws (s : string) : string :=
  match s with
  | EmptyString => EmptyString
  | String c s' => if is_ws c then skip_ws s' else s
  end.

Definition is_quote (d : dialect) (c : ascii) : bool :=
  match d with
  | JSON => (nat_of_ascii c =? 34)%nat
  | Python => (nat_of_ascii c =? 34)%nat || (nat_of_ascii c =? 39)%nat
  end.

(** The character an escape [\e] stands for. *)
Definition unescape (d : dialect) (e : ascii) : option ascii :=
  let n := nat_of_ascii e in
  if (n =? 34)%nat then Some e
  else if (n =? 92)%nat then Some e
  else if (n =? 110)%nat then Some (ascii_of_nat 10)
  else if (n =? 116)%nat then Some (ascii_of_nat 9)
  else if (n =? 114)%nat then Some (ascii_of_nat 13)
  else match d with
       | JSON => if (n =? 47)%nat then Some e else None
       | Python => if (n =? 39)%nat then Some e else None
       end.

Definition printable (c : ascii) : bool :=
  let n := nat_of_ascii c in (32 <=? n)%nat && (n <? 127)%nat.

(** The body of a string up to the closing quote [q], and the text after it. *)
Fixpoint read_string (d : dialect) (q : ascii) (s : string)
  : option (string * string) :=
  match s with
  | EmptyString => None
  | String c s' =>
      if Ascii.eqb c q then Some (EmptyString, s')
      else if (nat_of_ascii c =? 92)%nat then
        match s' with
        | EmptyString => None
        | String e s'' =>
            match unescape d e, read_string d q s'' with
            | Some ch, Some (body, rest) => Some (String ch body, rest)
            | _, _ => None
            end
        end
      else if printable c then
        match read_string d q s' with
        | Some (body, rest) => Some (String c body, rest)
        | None => None
        end
      else None
  end.

Definition digit (c : ascii) : option Z :=
  let n := nat_of_ascii c in
  if (48 <=? n)%nat && (n <=? 57)%nat then Some (Z.of_nat (n - 48)) else None.

(** The digits at the head of [s]: their value after [acc], how many they
    are, and the text after them. *)
Fixpoint read_digits (acc : Z) (count : nat) (s : string) : Z * nat * string :=
  match s with
  | EmptyString => (acc, count, s)
  | String c s' =>
      match digit c with
      | Some v => read_digits (10 * acc + v)%Z (S count) s'
      | None => (acc, count, s)
      end
  end.

(** An integer without sign: no leading zero, no fraction, no exponent. *)
Definition read_natural (s : string) : option (Z * string) :=
  match read_digits 0 0 s with
  | (_, O, _) => None
  | (n, S k, rest) =>
      let leading_zero := prefix "0" s && negb (k =? 0)%nat in
      let continues := prefix "." rest || prefix "e" rest || prefix "E" rest in
      if leading_zero || continues then None else Some (n, rest)
  end.

Definition read_keyword (kw : string) (v : value) (s : string)
  : option (value * string) :=
  if prefix kw s
  then Some (v, substring (String.length kw) (String.length s) s)
  else None.

(** A literal or an integer at the head of [s]. *)
Definition read_atom (d : dialect) (s : string) : option (value * string) :=
  let first_of xs := fold_right (fun o r => match o with Some x => Some x | None => r end) None xs in
  let literals :=
    match d with
    | JSON => [read_keyword "true" (VBool true) s;
               read_keyword "false" (VBool false) s;
               read_keyword "null" VNone s]
    | Python => [read_keyword "True" (VBool true) s;
                 read_keyword "False" (VBool false) s;
                 read_keyword "None" VNone s]
    end in
  match first_of literals with
  | Some r => Some r
  | None =>
      match s with
      | String c s' =>
          if (nat_of_ascii c =? 45)%nat
          then match read_natural s' with
               | Some (n, rest) => Some (VInt (- n), rest)
               | None => None
               end
          else match read_natural s with
               | Some (n, rest) => Some (VInt n, rest)
               | None => None
               end
      | EmptyString => None
      end
  end.

(** One value at the head of [s]; [read_members] and [read_elements] read
    the rest of an object and of an array. *)
Fixpoint read_value (fuel : nat) (d : dialect) (s : string) {struct fuel}
  : option (value * string) :=
  match fuel with
  | O => None
  | S fuel' =>
      match skip_ws s with
      | EmptyString => None
      | String c rest =>
          if (nat_of_ascii c =? 123)%nat then
            match skip_ws rest with
            | EmptyString => None
            | String c' rest' =>
                if (nat_of_ascii c' =? 125)%nat then Some (VDict [], rest')
                else read_members fuel' d [] rest
            end
          else if (nat_of_ascii c =? 91)%nat then
            match skip_ws rest with
            | EmptyString => None
            | String c' rest' =>
                if (nat_of_ascii c' =? 93)%nat then Some (VList [], rest')
                else read_elements fuel' d [] rest
            end
          else if is_quote d c then
            match read_string d c rest with
            | Some (body, rest') => Some (VStr body, rest')
            | None => None
            end
          else read_atom d (String c rest)
      end
  end
with read_members (fuel : nat) (d : dialect) (acc : list (string * value))
       (s : string) {struct fuel} : option (value * string) :=
  match fuel with
  | O => None
  | S fuel' =>
      match skip_ws s with
      | EmptyString => None
      | String q rest =>
          if is_quote d q then
            match read_string d q rest with
            | None => None
            | Some (key, rest1) =>
                match skip_ws rest1 with
                | EmptyString => None
                | String colon rest2 =>
                    if (nat_of_ascii colon =? 58)%nat then
                      match read_value fuel' d rest2 with
                      | None => None
                      | Some (v, rest3) =>
                          let acc' := store key v acc in
                          match skip_ws rest3 with
                          | EmptyString => None
                          | String sep rest4 =>
                              if (nat_of_ascii sep =? 44)%nat
                              then read_members fuel' d acc' rest4
                              else if (nat_of_ascii sep =? 125)%nat
                              then Some (VDict acc', rest4)
                              else None
                          end
                      end
                    else None
                end
            end
          else None
      end
  end
with read_elements (fuel : nat) (d : dialect) (acc : list value)
       (s : string) {struct fuel} : option (value * string) :=
  match fuel with
  | O => None
  | S fuel' =>
      match read_value fuel' d s with
      | None => None
      | Some (v, rest) =>
          match skip_ws rest with
          | EmptyString => None
          | String sep rest' =>
              if (nat_of_ascii sep =? 44)%nat
              then read_elements fuel' d (acc ++ [v])%list rest'
              else if (nat_of_ascii sep =? 93)%nat
              then Some (VList (acc ++ [v])%list, rest')
              else None
          end
      end
  end.

(** The whole text is one value between optional blanks.  Every call of
    the reader that takes fuel is paid by a character read or by the bracket
    that closes what it opened, so twice the length is enough fuel. *)
Definition loads (d : dialect) (text : string) : answer value :=
  match read_value (2 * String.length text + 2) d text with
  | None => Failed "Expecting value"
  | Some (v, rest) =>
      match skip_ws rest with
      | EmptyString => Returned v
      | _ => Failed "Extra data"
      end
  end.

(** A string between double quotes, with the quote, the backslash and the
    line feed escaped. *)
Fixpoint escape (s : string) : string :=
  match s with
  | EmptyString => EmptyString
  | String c s' =>
      let n := nat_of_ascii c in
      if (n =? 34)%nat || (n =? 92)%nat then String (ascii_of_nat 92) (String c (escape s'))
      else if (n =? 10)%nat then String (ascii_of_nat 92) (String "n" (escape s'))
      else String c (escape s')
  end.

Definition quoted (s : string) : string := DQ ++ escape s ++ DQ.

Fixpoint spaces (n : nat) : string :=
  match n with
  | O => EmptyString
  | S k => String " " (spaces k)
  end.

(** [json.dumps(v, indent=2)], the value standing at depth [indent]; a float
    leaf is outside the fragment and is written as [NaN], an object of
    another type as its [repr]. *)
Fixpoint dumps_at (indent : nat) (v : value) : string :=
  match v with
  | VNone => "null"
  | VBool true => "true"
  | VBool false => "false"
  | VInt n => NilZero.string_of_int (Z.to_int n)
  | VFloat _ => "NaN"
  | VOther _ repr => repr
  | VStr s => quoted s
  | VList [] => "[]"
  | VList items =>
      "[" ++ LF
      ++ join ("," ++ LF)
           (map (fun x => spaces (indent + 2) ++ dumps_at (indent + 2) x) items)
      ++ LF ++ spaces indent ++ "]"
  | VTuple [] => "[]"
  | VTuple items =>
      "[" ++ LF
      ++ join ("," ++ LF)
           (map (fun x => spaces (indent + 2) ++ dumps_at (indent + 2) x) items)
      ++ LF ++ spaces indent ++ "]"
  | VDict [] => "{}"
  | VDict items =>
      "{" ++ LF
      ++ join ("," ++ LF)
           (map (fun kv =>
                   match kv with
                   | (k, w) =>
                       spaces (indent + 2) ++ quoted k ++ ": "
                       ++ dumps_at (indent + 2) w
                   end) items)
      ++ LF ++ spaces indent ++ "}"
  end.

Definition dumps (v : value) : string := dumps_at 0 v.

(** The exception of a rendering as JSON that allows neither floats out of
    range nor objects of other types: that of the first such leaf. *)
Fixpoint rendering_error (v : value) : option exn :=
  let first_of :=
    fold_right (fun o r => match o with Some e => Some e | None => r end) None in
  match v with
  | VFloat x =>
      if PrimFloat.is_finite x then None
      else Some (ValueError "Out of range float values are not JSON compliant")
  | VOther type _ =>
      Some (TypeError ("Object of type " ++ type ++ " is not JSON serializable"))
  | VList items | VTuple items => first_of (map rendering_error items)
  | VDict items =>
      first_of (map (fun kv => match kv with (_, w) => rendering_error w end)
                  items)
  | _ => None
  end.

(** A text written with the apostrophe for the double quote. *)
Fixpoint dq (s : string) : string :=
  match s with
  | EmptyString => EmptyString
  | String c s' =>
      String (if (nat_of_ascii c =? 39)%nat then ascii_of_nat 34 else c) (dq s')
  end.

End Reference.

(** Sequencing of results without requests. *)
Definition and_then {A B : Type} (o : outcome A) (k : A -> outcome B) : outcome B :=
  match o with
  | Ok a => k a
  | Raise e => Raise e
  end.

Notation "x <~ o ;; k" := (and_then o (fun x => k))
  (at level 61, o at next level, right associativity) : py_scope.

(** ** [src/rank.py] *)
Module Rank.

(** An uploaded file: its name and its bytes. *)
Record UploadFile : Type := { filename : string; file : list Byte.byte }.

(** The report: the header line and the rows handed to the CSV writer. *)
Record table : Type :=
  { csv_header : list string;
    csv_rows : list (list value) }.

Section Services.
Context {J : JsonLib} {C : CompletionService} {D : DocumentTextSource}.

(** [extract_text_from_pdf]: the non-empty page texts, each followed by a
    line feed; any exception of the reader becomes a 400.  The rewinding of
    the file in the [finally] clause has no effect on what follows and is
    left out. *)
Definition extract_text_from_pdf (uploaded_file : UploadFile) : M string :=
  match PdfReader_pages (file uploaded_file) with
  | Returned pages =>
      ret (fold_left
             (fun text page_text =>
                match page_text with
                | EmptyString => text
                | _ => text ++ page_text ++ LF
                end)
             pages EmptyString)
  | Failed e => raise (HTTPException 400 ("Error processing PDF: " ++ e))
  end.

(** [extract_text_from_docx]. *)
Definition extract_text_from_docx (uploaded_file : UploadFile) : M string :=
  match Document_paragraphs (file uploaded_file) with
  | Returned paragraphs => ret (join LF paragraphs)
  | Failed e => raise (HTTPException 400 ("Error processing DOCX: " ++ e))
  end.

Definition system_message : message :=
  {| role := "system";
     content := "You are an expert resume evaluator. Score candidates based on provided criteria using continuous scoring ranges." |}.

Definition user_message (candidate_name resume_text : string)
    (criteria_data : value) : message :=
  {| role := "user";
     content :=
       "Candidate Name: " ++ candidate_name ++ LF ++ LF
       ++ "Resume Text:" ++ LF ++ resume_text ++ LF ++ LF
       ++ "Criteria (nested JSON):" ++ LF
       ++ json_dumps_indent2 criteria_data ++ LF ++ LF
       ++ "Instructions:" ++ LF
       ++ "For each criterion in the nested groups, evaluate the candidate's resume and assign scores as follows:" ++ LF ++ LF
       ++ "1. **Must have**: Assign a score between 0 and 10. Use 0 if the criterion is not met at all, 10 if fully met, "
       ++ "and any intermediate value (e.g., 7) if the evidence is partial." ++ LF ++ LF
       ++ "2. **Good to have**: Assign a score between 0 and 5, where 0 means not met and 5 means strongly met. "
       ++ "Intermediate values are allowed." ++ LF ++ LF
       ++ "3. **Nice to have**: Assign a score between 0 and 2, where 0 means not met and 2 means strongly met, "
       ++ "with intermediate scores allowed." ++ LF ++ LF
       ++ "After evaluating all criteria, compute the total score as the sum of all individual scores. "
       ++ "Return a JSON object in the following format exactly:" ++ LF ++ LF
       ++ "{" ++ LF
       ++ "  " ++ DQ ++ "candidate_name" ++ DQ ++ ": " ++ DQ ++ "Candidate Name" ++ DQ ++ "," ++ LF
       ++ "  " ++ DQ ++ "scores" ++ DQ ++ ": {" ++ LF
       ++ "      " ++ DQ ++ "Must have" ++ DQ ++ ": {" ++ LF
       ++ "          " ++ DQ ++ "criterion 1" ++ DQ ++ ": score," ++ LF
       ++ "          " ++ DQ ++ "criterion 2" ++ DQ ++ ": score," ++ LF
       ++ "          ..." ++ LF
       ++ "      }," ++ LF
       ++ "      " ++ DQ ++ "Good to have" ++ DQ ++ ": { ... }," ++ LF
       ++ "      " ++ DQ ++ "Nice to have" ++ DQ ++ ": { ... }" ++ LF
       ++ "  }," ++ LF
       ++ "  " ++ DQ ++ "total_score" ++ DQ ++ ": total_score" ++ LF
       ++ "}" ++ LF ++ LF
       ++ "Ensure that the JSON is properly formatted." |}.

(** The request of [get_gpt_scores]. *)
Definition scoring_request (candidate_name resume_text : string)
    (criteria_data : value) : request :=
  {| model := "gpt-4o";
     messages := [system_message;
                  user_message candidate_name resume_text criteria_data];
     temperature := 0%float;
     max_tokens := None |}.

(** [get_gpt_scores]: one request; the characters [7:-3] of the content of
    the first choice are read as JSON.  The content is taken outside the
    [try] blocks: a completion without choices and a content that is [None]
    raise what the subscripts raise. *)
Definition get_gpt_scores (candidate_name resume_text : string)
    (criteria_data : value) : M value :=
  completion <- create (scoring_request candidate_name resume_text
                                        criteria_data);;
  match completion with
  | Failed e => raise (HTTPException 500 ("Error calling GPT API: " ++ e))
  | Returned [] => raise (IndexError "list index out of range")
  | Returned (None :: _) =>
      raise (TypeError "'NoneType' object is not subscriptable")
  | Returned (Some text :: _) =>
      let reply := slice text 7 (-3) in
      match json_loads reply with
      | Returned result => ret result
      | Failed e =>
          raise (HTTPException 500
                   ("Error parsing GPT response: " ++ e
                    ++ ". Response was: " ++ reply))
      end
  end.

Definition invalid_criteria : exn :=
  HTTPException 400
    "Invalid criteria format. Must be a JSON with a 'criteria' key containing nested groups.".

(** The first block of [score_resumes]: the items of the dict under the
    key [criteria] of the payload; anything else is a 400. *)
Definition load_criteria (criteria : string)
  : outcome (list (string * value)) :=
  match json_loads criteria with
  | Failed _ => Raise invalid_criteria
  | Returned criteria_payload =>
      match get criteria_payload "criteria" VNone with
      | Raise _ => Raise invalid_criteria
      | Ok (VDict items) => Ok items
      | Ok _ => Raise invalid_criteria
      end
  end.

(** The body of the loop over the groups: the inner loop over the keys of a
    group appends to both lists; a group that is not a dict is passed over. *)
Definition flatten_group (acc : list (string * string) * list string)
    (item : string * value) : list (string * string) * list string :=
  match item with
  | (group, VDict group_criteria) =>
      fold_left
        (fun acc crit_key =>
           match acc with
           | (flattened_criteria, headers) =>
               ((flattened_criteria ++ [(group, crit_key)])%list,
                (headers ++ [(group ++ ": " ++ crit_key)%string])%list)
           end)
        (keys group_criteria) acc
  | (_, _) => acc
  end.

(** The pair [(flattened_criteria, headers)] after the loop. *)
Definition flatten (criteria_data : list (string * value))
  : list (string * string) * list string :=
  fold_left flatten_group criteria_data ([], []).

(** The loop that fills a row, one cell per flattened criterion. *)
Fixpoint fill_row (flattened_criteria : list (string * string))
    (gpt_result : value) (row : list value) : outcome (list value) :=
  match flattened_criteria with
  | [] => Ok row
  | (group, crit_key) :: rest =>
      scores <~ get gpt_result "scores" (VDict []);;
      group_scores <~ get scores group (VDict []);;
      score <~ get group_scores crit_key (VInt 0);;
      fill_row rest gpt_result (row ++ [score])%list
  end.

(** The row of one candidate. *)
Definition build_row (candidate_name : string)
    (flattened_criteria : list (string * string)) (gpt_result : value)
  : outcome (list value) :=
  row <~ fill_row flattened_criteria gpt_result [VStr candidate_name];;
  total <~ get gpt_result "total_score" (VInt 0);;
  Ok (row ++ [total])%list.

(** [filename.rsplit(".", 1)[0]]. *)
Definition candidate_name_of (filename : string) : string :=
  nth 0 (rsplit1 "." filename) EmptyString.

(** The reader the loop picks for a file, by the end of its lower-cased
    name; [None] is the [continue] of an unsupported type. *)
Definition reader_of (uploaded_file : UploadFile) : option (M string) :=
  if endswith (lower (filename uploaded_file)) ".pdf"
  then Some (extract_text_from_pdf uploaded_file)
  else if endswith (lower (filename uploaded_file)) ".docx"
  then Some (extract_text_from_docx uploaded_file)
  else None.

(** The body of the loop over the files; [written] holds the rows written
    so far. *)
Definition loop_body (criteria_data : value)
    (flattened_criteria : list (string * string))
    (written : list (list value)) (uploaded_file : UploadFile)
  : M (list (list value)) :=
  let candidate_name := candidate_name_of (filename uploaded_file) in
  match reader_of uploaded_file with
  | None => ret written
  | Some read =>
      resume_text <- read;;
      gpt_result <- get_gpt_scores candidate_name resume_text criteria_data;;
      row <- pure_outcome
               (build_row candidate_name flattened_criteria gpt_result);;
      ret (written ++ [row])%list
  end.

(** The loop over the files, in the order of the upload. *)
Fixpoint write_rows (criteria_data : value)
    (flattened_criteria : list (string * string))
    (files : list UploadFile) (written : list (list value))
  : M (list (list value)) :=
  match files with
  | [] => ret written
  | uploaded_file :: rest =>
      written' <- loop_body criteria_data flattened_criteria written
                            uploaded_file;;
      write_rows criteria_data flattened_criteria rest written'
  end.

(** [score_resumes]: the table whose lines the CSV writer receives, the
    header first and then the rows in the order in which they were written.
    The quoting of the cells by the writer and the wrapping of the text in a
    streaming response are left out. *)
Definition score_resumes (criteria : string) (files : list UploadFile)
  : M table :=
  criteria_data <- pure_outcome (load_criteria criteria);;
  match flatten criteria_data with
  | (flattened_criteria, headers) =>
      rows <- write_rows (VDict criteria_data) flattened_criteria files [];;
      ret {| csv_header := (["Candidate Name"] ++ headers ++ ["Total Score"])%list;
             csv_rows := rows |}
  end.

End Services.

(** *** The report header as the specification words it *)

Definition tier_labels : list string :=
  ["Must have"; "Good to have"; "Nice to have"].

(** Tiers in the fixed order Must, Good, Nice; within a tier the criteria in
    insertion order; one label per pair. *)
Definition buildHeader_by_tier (criteria : list (string * value))
  : list string :=
  flat_map
    (fun tier =>
       match lookup tier criteria with
       | Some (VDict group_criteria) =>
           map (fun crit_key => tier ++ ": " ++ crit_key) (keys group_criteria)
       | _ => []
       end)
    tier_labels.

(** *** Notions the properties are stated with *)

(** The name of the file has one of the two endings the loop accepts. *)
Definition supported (uploaded_file : UploadFile) : bool :=
  endswith (lower (filename uploaded_file)) ".pdf"
  || endswith (lower (filename uploaded_file)) ".docx".

(** The detail of the error the document reader of a file ends in, when the
    document-to-text step fails for it. *)
Definition extraction_failure `{DocumentTextSource} (uploaded_file : UploadFile)
  : option string :=
  if endswith (lower (filename uploaded_file)) ".pdf" then
    match PdfReader_pages (file uploaded_file) with
    | Failed e => Some ("Error processing PDF: " ++ e)
    | Returned _ => None
    end
  else if endswith (lower (filename uploaded_file)) ".docx" then
    match Document_paragraphs (file uploaded_file) with
    | Failed e => Some ("Error processing DOCX: " ++ e)
    | Returned _ => None
    end
  else None.

(** The (group, criterion) pairs of one top-level item, and the label of a
    pair. *)
Definition pairs_of (item : string * value) : list (string * string) :=
  match item with
  | (group, VDict group_criteria) => map (pair group) (keys group_criteria)
  | (_, _) => []
  end.

Definition label (p : string * string) : string := fst p ++ ": " ++ snd p.

(** What a response holds for a pair, following its entry [scores], then
    the entry of the group, then the entry of the criterion: a score; nothing,
    because one of the three keys is missing; or no answer, because the
    response, its entry [scores] or the entry of the group is not an
    object. *)
Inductive entry : Type :=
| Recorded (score : value)
| Missing
| Malformed.

Definition entry_of (gpt_result : value) (group crit_key : string) : entry :=
  match gpt_result with
  | VDict items =>
      match lookup "scores" items with
      | None => Missing
      | Some (VDict scores) =>
          match lookup group scores with
          | None => Missing
          | Some (VDict group_scores) =>
              match lookup crit_key group_scores with
              | Some score => Recorded score
              | None => Missing
              end
          | Some _ => Malformed
          end
      | Some _ => Malformed
      end
  | _ => Malformed
  end.

(** The value of a cell: the recorded score, or 0. *)
Definition cell_of (gpt_result : value) (p : string * string) : value :=
  match entry_of gpt_result (fst p) (snd p) with
  | Recorded score => score
  | _ => VInt 0
  end.

(** The response is an object in which every flattened pair is recorded or
    missing. *)
Definition score_structure (flattened_criteria : list (string * string))
    (gpt_result : value) : bool :=
  is_dict gpt_result
  && forallb
       (fun p =>
          match entry_of gpt_result (fst p) (snd p) with
          | Malformed => false
          | _ => true
          end)
       flattened_criteria.

(** The total a response reports. *)
Definition reported_total (gpt_result : value) : value :=
  match gpt_result with
  | VDict items =>
      match lookup "total_score" items with
      | Some total => total
      | None => VInt 0
      end
  | _ => VInt 0
  end.

(** The sum of the integer cells of a list of cells, when all are integers. *)
Fixpoint sum_cells (cells : list value) : option Z :=
  match cells with
  | [] => Some 0%Z
  | VInt n :: rest => option_map (Z.add n) (sum_cells rest)
  | _ :: _ => None
  end.

(** The text the loop hands to the evaluator for a file: what the reader of
    the file returns, when the file is of a supported type and its reader
    does not fail. *)
Definition resume_text_of `{DocumentTextSource} (uploaded_file : UploadFile)
  : option string :=
  match reader_of uploaded_file with
  | Some read =>
      match fst (read []) with
      | Ok text => Some text
      | Raise _ => None
      end
  | None => None
  end.

(** The requests a batch gives rise to: one per file that has a text. *)
Definition requests_of `{JsonLib} `{DocumentTextSource}
    (criteria_data : value) (files : list UploadFile) : list request :=
  flat_map
    (fun f =>
       match resume_text_of f with
       | Some text =>
           [scoring_request (candidate_name_of (filename f)) text criteria_data]
       | None => []
       end)
    files.

End Rank.

(** ** [src/extract.py] *)
Module Extract.

(** The three characters that stand between [formatting] and [output] in
    the instruction, as their UTF-8 bytes. *)
Definition dash : string :=
  fold_right (fun n s => String (ascii_of_nat n) s) EmptyString
    [195; 162; 226; 130; 172; 226; 128; 157]%nat.

Definition system_content : string :=
  "You are an HR expert that extracts key ranking criteria from job descriptions. "
  ++ "Extract key features from the job description and structure them into a JSON object with three keys: 'Must have', 'Good to have', and 'Nice to have'. "
  ++ "Each of these keys should map to a nested JSON object where the keys represent the criteria (e.g., years of experience, certifications, skills) "
  ++ "and the values can be booleans, strings, numbers, etc. "
  ++ "Do not include any extra text, explanations, or markdown formatting" ++ dash ++ "output only a valid JSON object. "
  ++ "Example output:" ++ LF
  ++ "{" ++ LF
  ++ "  " ++ DQ ++ "Must have" ++ DQ ++ ": {" ++ LF
  ++ "    " ++ DQ ++ "experience in python in years" ++ DQ ++ ": " ++ DQ ++ "2" ++ DQ ++ "," ++ LF
  ++ "    " ++ DQ ++ "experience in machine learning in years" ++ DQ ++ ": " ++ DQ ++ "1" ++ DQ ++ "," ++ LF
  ++ "    " ++ DQ ++ "postgraduate degree" ++ DQ ++ ": true," ++ LF
  ++ "    " ++ DQ ++ "Cloud skills" ++ DQ ++ ": " ++ DQ ++ "AWS, Azure with projects done in such fields" ++ DQ ++ "," ++ LF
  ++ "    " ++ DQ ++ "Gen AI related project experience" ++ DQ ++ ": " ++ DQ ++ "Candidate should have worked on at least 2 projects using RAG and GPT models" ++ DQ ++ LF
  ++ "  }," ++ LF
  ++ "  " ++ DQ ++ "Good to have" ++ DQ ++ ": {" ++ LF
  ++ "    ..." ++ LF
  ++ "  }," ++ LF
  ++ "  " ++ DQ ++ "Nice to have" ++ DQ ++ ": {" ++ LF
  ++ "    ..." ++ LF
  ++ "  }" ++ LF
  ++ "}".

Definition messages_for (job_text : string) : list message :=
  [ {| role := "system"; content := system_content |};
    {| role := "user"; content := "Job Description:" ++ LF ++ job_text |} ].

(** The request of [extract_criteria_from_text]. *)
#[warnings="-inexact-float"]
Definition criteria_request (job_text : string) : request :=
  {| model := "gpt-4o";
     messages := messages_for job_text;
     temperature := 0.2%float;
     max_tokens := Some 300%Z |}.

(** The text the JSON reader receives: every [True] and [False] of the
    completion respelled. *)
Definition normalize (criteria_text : string) : string :=
  replace "False" "false" (replace "True" "true" criteria_text).

(** *** The normalization as the specification words it *)

(** The text in which the first character of every occurrence of [word] is
    [letter]. *)
Fixpoint respell_word (word : string) (letter : ascii) (s : string) : string :=
  match s with
  | EmptyString => EmptyString
  | String c s' =>
      String (if prefix word s then letter else c) (respell_word word letter s')
  end.

(** Every occurrence of [True] respelled [true] and every occurrence of
    [False] respelled [false]: wherever one of the two words stands in the
    text its first letter is lowered, and every other character is kept. *)
Fixpoint respell (s : string) : string :=
  match s with
  | EmptyString => EmptyString
  | String c s' =>
      String (if prefix "True" s then "t"%char
              else if prefix "False" s then "f"%char
              else c)
        (respell s')
  end.

Section Services.
Context {J : JsonLib} {A : AstLib} {C : CompletionService}.

(** The inner [try] of [extract_criteria_from_text]: the normalized text is
    read as JSON; when that raises, the text as received is evaluated as a
    Python literal, whose exception is left to the outer handler. *)
Definition parse_criteria (criteria_text : string) : answer value :=
  let normalized_text := normalize criteria_text in
  match json_loads normalized_text with
  | Returned parsed => Returned parsed
  | Failed _ => literal_eval criteria_text
  end.

(** [extract_criteria_from_text]: one request; every exception raised on
    the way, those of a completion without choices and of a content that is
    [None] among them, becomes a 500 that quotes the exception. *)
Definition extract_criteria_from_text (job_text : string) : M value :=
  response <- create (criteria_request job_text);;
  match response with
  | Failed e =>
      raise (HTTPException 500 ("Error processing text with OpenAI: " ++ e))
  | Returned [] =>
      raise (HTTPException 500
               ("Error processing text with OpenAI: "
                ++ "list index out of range"))
  | Returned (None :: _) =>
      raise (HTTPException 500
               ("Error processing text with OpenAI: "
                ++ "'NoneType' object has no attribute 'strip'"))
  | Returned (Some text :: _) =>
      match parse_criteria (strip text) with
      | Returned parsed => ret parsed
      | Failed e =>
          raise (HTTPException 500 ("Error processing text with OpenAI: " ++ e))
      end
  end.

(** *** The parse as the specification words it *)

Inductive parsed_or_error : Type :=
| Parsed (criteria : value)
| ExtractionParseError (raw_text : string).

(** A strict parse of the raw text; only when it fails, the literal
    spellings are normalized and the strict parse retried; when both fail,
    the error carries the raw text. *)
Definition parse_strict_then_normalized (raw_text : string) : parsed_or_error :=
  match json_loads raw_text with
  | Returned criteria => Parsed criteria
  | Failed _ =>
      match json_loads (normalize raw_text) with
      | Returned criteria => Parsed criteria
      | Failed _ => ExtractionParseError raw_text
      end
  end.

End Services.

End Extract.

(** ** [src/extract.py]: the document readers and the endpoint *)
Module Endpoint.

(** What the web framework defines: [str(e)] for an [HTTPException], and the
    exception [JSONResponse(content=...)] raises when it renders a content
    that is no JSON ([ValueError] for a float that is out of range,
    [TypeError] for an object that cannot be serialized), if it raises. *)
Class WebFramework : Type :=
  { HTTPException_str : Z -> string -> string;
    JSONResponse_error : value -> option exn }.

(** [tempfile.NamedTemporaryFile(delete=False, suffix=".docx")]: the name of
    the file it creates beside files of the given names. *)
Class TempFiles : Type :=
  { temporary_name : list string -> string }.

(** An upload: the declared content type and the file name, either of which
    may be absent, and the bytes [file.read()] gives. *)
Record UploadFile : Type :=
  { content_type : option string;
    filename : option string;
    contents : list Byte.byte }.

(** What the endpoint acts on: the requests sent to the completion service
    and the temporary files on disk, by name. *)
Record world : Type :=
  { sent : list request;
    disk : list (string * list Byte.byte) }.

Definition IO (A : Type) : Type := world -> outcome A * world.

Definition ret_io {A : Type} (a : A) : IO A := fun w => (Ok a, w).

Definition raise_io {A : Type} (e : exn) : IO A := fun w => (Raise e, w).

Definition bind_io {A B : Type} (m : IO A) (k : A -> IO B) : IO B :=
  fun w =>
    match m w with
    | (Ok a, w') => k a w'
    | (Raise e, w') => (Raise e, w')
    end.

(** [try: m except Exception as e: handler e]. *)
Definition except {A : Type} (m : IO A) (handler : exn -> IO A) : IO A :=
  fun w =>
    match m w with
    | (Ok a, w') => (Ok a, w')
    | (Raise e, w') => handler e w'
    end.

(** A computation that only sends requests. *)
Definition with_requests {A : Type} (m : M A) : IO A :=
  fun w =>
    match m (sent w) with
    | (o, sent') => (o, {| sent := sent'; disk := disk w |})
    end.

(** [os.unlink(path)]. *)
Definition unlink (path : string) (files : list (string * list Byte.byte))
  : list (string * list Byte.byte) :=
  filter (fun entry => negb (String.eqb (fst entry) path)) files.

Declare Scope io_scope.
Delimit Scope io_scope with io.
Notation "x <- m ;; k" := (bind_io m (fun x => k))
  (at level 61, m at next level, right associativity) : io_scope.
Local Open Scope io_scope.

Section Services.
Context {J : JsonLib} {A : AstLib} {C : CompletionService}
        {D : DocumentTextSource} {W : WebFramework} {T : TempFiles}.

(** [str(e)]. *)
Definition str (e : exn) : string :=
  match e with
  | HTTPException status_code detail => HTTPException_str status_code detail
  | AttributeError message => message
  | TypeError message => message
  | IndexError message => message
  | ValueError message => message
  end.

(** [extract_text_from_pdf]: the non-empty page texts, each followed by a
    line feed; any exception of the reader becomes a 500. *)
Definition extract_text_from_pdf (file_stream : list Byte.byte) : IO string :=
  match PdfReader_pages file_stream with
  | Returned pages =>
      ret_io (fold_left
                (fun text page_text =>
                   match page_text with
                   | EmptyString => text
                   | _ => text ++ page_text ++ LF
                   end)
                pages EmptyString)
  | Failed e => raise_io (HTTPException 500 ("Error reading PDF file: " ++ e))
  end.

(** [extract_text_from_docx]: the bytes are written to a new temporary file,
    which is kept when it is closed; the document is read from it; the file
    is unlinked once the text is there, and not when the reader raises. *)
Definition extract_text_from_docx (file_stream : list Byte.byte) : IO string :=
  fun w =>
    let tmp_path := temporary_name (map fst (disk w)) in
    let written :=
      {| sent := sent w;
         disk := (disk w ++ [(tmp_path, file_stream)])%list |} in
    match Document_paragraphs file_stream with
    | Returned paragraphs =>
        (Ok (join LF paragraphs),
         {| sent := sent written; disk := unlink tmp_path (disk written) |})
    | Failed e =>
        (Raise (HTTPException 500 ("Error reading DOCX file: " ++ e)), written)
    end.

Definition allowed_types : list string :=
  ["application/pdf";
   "application/vnd.openxmlformats-officedocument.wordprocessingml.document"].

(** [file.content_type not in allowed_types]. *)
Definition type_allowed (file : UploadFile) : bool :=
  match content_type file with
  | Some declared => existsb (String.eqb declared) allowed_types
  | None => false
  end.

(** The body of the [try] of [extract_criteria]: the reader is picked by the
    end of the lower-cased file name. *)
Definition read_job_text (file : UploadFile) : IO string :=
  match filename file with
  | None =>
      raise_io (AttributeError "'NoneType' object has no attribute 'lower'")
  | Some name =>
      if endswith (lower name) ".pdf"
      then extract_text_from_pdf (contents file)
      else if endswith (lower name) ".docx"
      then extract_text_from_docx (contents file)
      else raise_io
             (HTTPException 400
                "Unsupported file extension. Only PDF and DOCX are supported.")
  end.

(** [extract_criteria]: the content of the JSON response, when
    [JSONResponse] renders it; the exception of the rendering otherwise,
    which no handler catches.  The bytes are those [file.read()] gives; a
    failure of that read is left out. *)
Definition extract_criteria (file : UploadFile) : IO value :=
  if negb (type_allowed file)
  then raise_io
         (HTTPException 400
            "Invalid file type. Only PDF and DOCX are supported.")
  else
    job_text <- except (read_job_text file)
                  (fun e =>
                     raise_io
                       (HTTPException 500
                          ("Error reading the file: " ++ str e)));;
    match strip job_text with
    | EmptyString =>
        raise_io
          (HTTPException 400
             "The uploaded file is empty or text could not be extracted.")
    | _ =>
        criteria <- with_requests (Extract.extract_criteria_from_text job_text);;
        match JSONResponse_error (VDict [("criteria", criteria)]) with
        | None => ret_io (VDict [("criteria", criteria)])
        | Some e => raise_io e
        end
    end.

End Services.

End Endpoint.

(** ** Services for running the program on concrete inputs *)
Module Fixture.

Definition reference_json : JsonLib :=
  {| json_loads := Reference.loads Reference.JSON;
     json_dumps_indent2 := Reference.dumps |}.

Definition reference_ast : AstLib :=
  {| literal_eval := Reference.loads Reference.Python |}.

(** A completion service that gives the [n]-th answer of a script to the
    [n]-th request, a text as the content of a single choice. *)
Definition scripted (answers : list (answer string)) : CompletionService :=
  {| chat_completions_create :=
       fun sent _ =>
         match nth (List.length sent) answers (Failed "Connection error.") with
         | Returned text => Returned [Some text]
         | Failed e => Failed e
         end |}.

(** A completion service that fences a fixed JSON text the way the slice
    [7:-3] of [get_gpt_scores] expects. *)
Definition fenced (json_text : string) : string :=
  "```json" ++ LF ++ json_text ++ LF ++ "```".

(** Document readers for files of text: a file that opens with [%PDF] is one
    page holding the rest of its bytes, a file that opens with [PK] is one
    paragraph; any other file makes the reader raise. *)
Definition text_files : DocumentTextSource :=
  {| PdfReader_pages :=
       fun bytes =>
         match bytes with
         | Byte.x25 :: Byte.x50 :: Byte.x44 :: Byte.x46 :: rest =>
             Returned [string_of_list_byte rest]
         | _ => Failed "EOF marker not found"
         end;
     Document_paragraphs :=
       fun bytes =>
         match bytes with
         | Byte.x50 :: Byte.x4b :: rest => Returned [string_of_list_byte rest]
         | _ => Failed "File is not a zip file"
         end |}.

Definition pdf_of (text : string) : list Byte.byte :=
  (Byte.x25 :: Byte.x50 :: Byte.x44 :: Byte.x46 :: list_byte_of_string text)%list.

(** A criteria payload, three uploads and two completions. *)
Definition criteria_python : string :=
  Reference.dq "{'criteria': {'Must have': {'2 yrs Python': '2'}, 'Good to have': {}, 'Nice to have': {}}}".

Definition candidate1 : Rank.UploadFile :=
  {| Rank.filename := "candidate1.pdf";
     Rank.file := pdf_of "Five years of Python." |}.

Definition broken : Rank.UploadFile :=
  {| Rank.filename := "broken.pdf"; Rank.file := [] |}.

Definition notes : Rank.UploadFile :=
  {| Rank.filename := "notes.txt";
     Rank.file := list_byte_of_string "to do" |}.

Definition scores_8_total_8 : answer string :=
  Returned (fenced (Reference.dq "{'candidate_name': 'Somebody Else', 'scores': {'Must have': {'2 yrs Python': 8}}, 'total_score': 8}")).

Definition scores_8_total_5 : answer string :=
  Returned (fenced (Reference.dq "{'candidate_name': 'candidate1', 'scores': {'Must have': {'2 yrs Python': 8}}, 'total_score': 5}")).

Definition candidate2 : Rank.UploadFile :=
  {| Rank.filename := "Jane.Doe.CV.DOCX";
     Rank.file := (Byte.x50 :: Byte.x4b :: list_byte_of_string "Ten years of Java.")%list |}.

(** A criteria mapping that lists the tier Nice before the tier Must, and
    one with a group that is no tier. *)
Definition criteria_nice_first : string :=
  Reference.dq "{'criteria': {'Nice to have': {'AWS': true}, 'Must have': {'Python': '2'}}}".

Definition items_nice_first : list (string * value) :=
  [("Nice to have", VDict [("AWS", VBool true)]);
   ("Must have", VDict [("Python", VStr "2")])].

Definition criteria_with_bonus : string :=
  Reference.dq "{'criteria': {'Must have': {'Python': '2'}, 'Bonus': {'Referral': true}}}".

Definition scores_with_bonus : answer string :=
  Returned (fenced (Reference.dq "{'candidate_name': 'candidate1', 'scores': {'Must have': {'Python': 8}, 'Bonus': {'Referral': 3}}, 'total_score': 11}")).

(** Criteria with two tiers of one criterion each, and a completion that
    scores the second tier with a number and leaves the first one out, with
    the structure parsed from it. *)
Definition criteria_two_tiers : string :=
  Reference.dq "{'criteria': {'Must have': {'Python': '2'}, 'Good to have': {'AWS': '1'}}}".

Definition items_two_tiers : list (string * value) :=
  [("Must have", VDict [("Python", VStr "2")]);
   ("Good to have", VDict [("AWS", VStr "1")])].

Definition scores_good_3 : answer string :=
  Returned (fenced (Reference.dq "{'candidate_name': 'candidate1', 'scores': {'Good to have': 3}, 'total_score': 3}")).

Definition response_good_3 : value :=
  VDict [("candidate_name", VStr "candidate1");
         ("scores", VDict [("Good to have", VInt 3)]);
         ("total_score", VInt 3)].

(** A completion that opens with the seven characters of [Desole,] written
    with its two acute accents, which take two bytes each, before the JSON
    text of [scores_8_total_8], and ends with three. *)
Definition e_acute : string :=
  String (ascii_of_nat 195) (String (ascii_of_nat 169) EmptyString).

Definition desole : string := "D" ++ e_acute ++ "sol" ++ e_acute ++ ",".

Definition json_8_total_8 : string :=
  Reference.dq "{'candidate_name': 'Somebody Else', 'scores': {'Must have': {'2 yrs Python': 8}}, 'total_score': 8}".

Definition scores_after_desole : answer string :=
  Returned (desole ++ json_8_total_8 ++ "```").

(** The structure parsed from the completion [scores_8_total_5]. *)
Definition response_8_total_5 : value :=
  VDict [("candidate_name", VStr "candidate1");
         ("scores", VDict [("Must have", VDict [("2 yrs Python", VInt 8)])]);
         ("total_score", VInt 5)].

(** Two completions of the criteria extractor: a JSON text with [True]
    inside a string, and a Python literal. *)
Definition json_with_True : string :=
  Reference.dq "{'Must have': {'Team lead': 'True'}}".

Definition python_literal : string :=
  "{'Must have': {'True grit': True}}".

(** A completion that is no JSON. *)
Definition apology : string := "Sorry, I cannot score this resume.".

(** A score structure that omits the only criterion. *)
Definition scores_without_python : value :=
  VDict [("candidate_name", VStr "candidate1");
         ("scores", VDict [("Must have", VDict [])]);
         ("total_score", VInt 0)].

(** [score_resumes] on the reference reader, the readers of text files and
    a scripted completion service, before any request. *)
Definition run_score_resumes (answers : list (answer string))
    (criteria : string) (files : list Rank.UploadFile)
  : outcome Rank.table * list request :=
  @Rank.score_resumes reference_json (scripted answers) text_files
    criteria files [].

(** The criteria of [criteria_python], the header they give and the
    structure parsed from the completion [scores_8_total_8]. *)
Definition items_python : list (string * value) :=
  [("Must have", VDict [("2 yrs Python", VStr "2")]);
   ("Good to have", VDict []);
   ("Nice to have", VDict [])].

Definition header_python : list string :=
  ["Candidate Name"; "Must have: 2 yrs Python"; "Total Score"].

Definition response_8_total_8 : value :=
  VDict [("candidate_name", VStr "Somebody Else");
         ("scores", VDict [("Must have", VDict [("2 yrs Python", VInt 8)])]);
         ("total_score", VInt 8)].

(** The web framework whose [str] of an [HTTPException] is its status code,
    a colon and its detail and whose response renders the JSON values, and
    temporary files named by their number. *)
Definition starlette : Endpoint.WebFramework :=
  {| Endpoint.HTTPException_str :=
       fun status_code detail =>
         NilZero.string_of_int (Z.to_int status_code) ++ ": " ++ detail;
     Endpoint.JSONResponse_error := Reference.rendering_error |}.

Definition numbered_temp : Endpoint.TempFiles :=
  {| Endpoint.temporary_name :=
       fun names =>
         "/tmp/tmp"
         ++ NilZero.string_of_uint (Nat.to_uint (List.length names))
         ++ ".docx" |}.

(** The no-break space U+00A0 and the ideographic space U+3000, which are
    white space for [str.strip]. *)
Definition no_break_space : string :=
  String (ascii_of_nat 194) (String (ascii_of_nat 160) EmptyString).

Definition ideographic_space : string :=
  String (ascii_of_nat 227)
    (String (ascii_of_nat 128) (String (ascii_of_nat 128) EmptyString)).

(** The completion [json_with_True] between a no-break space and a line
    feed after an ideographic space. *)
Definition padded_json_with_True : string :=
  no_break_space ++ json_with_True ++ ideographic_space ++ LF.

(** A JSON reader that reads every text as the criteria whose one descriptor
    is the float infinity, as [json.loads] reads [Infinity]. *)
Definition reads_infinity : JsonLib :=
  {| json_loads :=
       fun _ =>
         Returned (VDict [("Must have", VDict [("Years", VFloat infinity)])]);
     json_dumps_indent2 := Reference.dumps |}.

(** Uploads of job descriptions: a PDF, a text file declared as PDF, a DOCX
    that is no archive, a PDF of blanks (a space, a no-break space and an
    ideographic space) and a DOCX. *)
Definition docx_type : string :=
  "application/vnd.openxmlformats-officedocument.wordprocessingml.document".

Definition job_pdf : Endpoint.UploadFile :=
  {| Endpoint.content_type := Some "application/pdf";
     Endpoint.filename := Some "Job.PDF";
     Endpoint.contents := pdf_of "Python developer wanted." |}.

Definition job_txt : Endpoint.UploadFile :=
  {| Endpoint.content_type := Some "application/pdf";
     Endpoint.filename := Some "job.txt";
     Endpoint.contents := list_byte_of_string "Python developer wanted." |}.

Definition broken_docx : Endpoint.UploadFile :=
  {| Endpoint.content_type := Some docx_type;
     Endpoint.filename := Some "job.docx";
     Endpoint.contents := list_byte_of_string "not an archive" |}.

Definition blank_pdf : Endpoint.UploadFile :=
  {| Endpoint.content_type := Some "application/pdf";
     Endpoint.filename := Some "blank.pdf";
     Endpoint.contents := pdf_of (" " ++ no_break_space ++ ideographic_space) |}.

Definition job_docx : Endpoint.UploadFile :=
  {| Endpoint.content_type := Some docx_type;
     Endpoint.filename := Some "job.docx";
     Endpoint.contents :=
       (Byte.x50 :: Byte.x4b :: list_byte_of_string "Java developer wanted.")%list |}.

(** A completion of the criteria extractor and what is parsed from it. *)
Definition criteria_completion : string :=
  Reference.dq "{'Must have': {'Python': '2'}, 'Good to have': {}, 'Nice to have': {}}".

Definition criteria_parsed : value :=
  VDict [("Must have", VDict [("Python", VStr "2")]);
         ("Good to have", VDict []);
         ("Nice to have", VDict [])].

Definition fresh_world : Endpoint.world :=
  {| Endpoint.sent := []; Endpoint.disk := [] |}.

(** [extract_criteria] on the reference readers, from a world without
    requests and without temporary files. *)
Definition run_extract_criteria (answers : list (answer string))
    (file : Endpoint.UploadFile) : outcome value * Endpoint.world :=
  @Endpoint.extract_criteria reference_json reference_ast (scripted answers)
    text_files starlette numbered_temp file fresh_world.

End Fixture.

(* ================================================================== *)
(** * Part II. Properties *)
(* ================================================================== *)

(** ** Facts about the string operations *)
Module PyFacts.

Lemma append_empty_r (s : string) : s ++ EmptyString = s.
Proof. induction s as [|c s IH]; simpl; congruence. Qed.

Lemma append_assoc (a b c : string) : (a ++ b) ++ c = a ++ b ++ c.
Proof. induction a as [|x a IH]; simpl; congruence. Qed.

Lemma length_append (a b : string) :
  String.length (a ++ b) = String.length a + String.length b.
Proof. induction a as [|x a IH]; simpl; congruence. Qed.

(** *** Characters *)
Lemma concat_empty_cons (x : string) (xs : list string) :
  String.concat EmptyString (x :: xs) = x ++ String.concat EmptyString xs.
Proof. destruct xs; simpl; [now rewrite append_empty_r|reflexivity]. Qed.


Lemma chars_head (s : string) :
  forall c, exists ch rest, chars (String c s) = String c ch :: rest.
Proof.
  induction s as [|d s IH]; intros c.
  - exists EmptyString, []. reflexivity.
  - cbn [chars]. destruct (continuation d).
    + destruct (IH d) as (ch & rest & Heq). cbn [chars] in Heq. rewrite Heq.
      eauto.
    + eauto.
Qed.

Lemma chars_cons_boundary (c : ascii) (s : string) :
  boundary s = true -> chars (String c s) = String c EmptyString :: chars s.
Proof.
  destruct s as [|d s]; [reflexivity|]. cbn [boundary chars].
  intros Hd. apply negb_true_iff in Hd. rewrite Hd. reflexivity.
Qed.

Lemma chars_cons_continuation (c d : ascii) (s ch : string) (rest : list string) :
  continuation d = true ->
  chars (String d s) = ch :: rest ->
  chars (String c (String d s)) = String c ch :: rest.
Proof.
  intros Hd Heq. cbn [chars] in *. rewrite Hd, Heq. reflexivity.
Qed.

Lemma chars_app (a b : string) :
  boundary b = true -> chars (a ++ b) = (chars a ++ chars b)%list.
Proof.
  intros Hb. induction a as [|c a IH]; [reflexivity|].
  destruct a as [|d a].
  - cbn [append]. rewrite (chars_cons_boundary c b Hb). reflexivity.
  - destruct (continuation d) eqn:Hd.
    + destruct (chars_head a d) as (ch & rest & Heq).
      change (String c (String d a) ++ b) with (String c (String d (a ++ b))).
      change (String d a ++ b) with (String d (a ++ b)) in IH.
      rewrite (chars_cons_continuation c d a _ _ Hd Heq).
      rewrite Heq in IH.
      rewrite (chars_cons_continuation c d (a ++ b) _ _ Hd IH). reflexivity.
    + change (String c (String d a) ++ b) with (String c (String d a ++ b)).
      rewrite (chars_cons_boundary c (String d a ++ b)),
        (chars_cons_boundary c (String d a)), IH; [reflexivity| |];
        cbn [append boundary]; now rewrite Hd.
Qed.

Lemma concat_chars (s : string) : String.concat EmptyString (chars s) = s.
Proof.
  induction s as [|c s IH]; [reflexivity|].
  destruct s as [|d s]; [reflexivity|].
  destruct (continuation d) eqn:Hd.
  - destruct (chars_head s d) as (ch & rest & Heq).
    rewrite (chars_cons_continuation c d s _ _ Hd Heq).
    rewrite Heq in IH. rewrite concat_empty_cons in *.
    cbn [append] in *. now rewrite IH.
  - rewrite chars_cons_boundary by (cbn [boundary]; now rewrite Hd).
    rewrite concat_empty_cons, IH. reflexivity.
Qed.

Lemma boundary_append (a b : string) :
  boundary a = true -> boundary b = true -> boundary (a ++ b) = true.
Proof. destruct a; intros; assumption. Qed.










(** Seven characters before and three after are exactly what the slice
    [7:-3] removes. *)
Lemma slice_fenced (pre x suf : string) :
  len pre = 7 -> len suf = 3 ->
  boundary x = true -> boundary suf = true ->
  slice (pre ++ x ++ suf) 7 (-3) = x.
Proof.
  unfold len. intros Hpre Hsuf Hx Hb. unfold slice, slice_bound.
  rewrite (chars_app pre (x ++ suf)) by now apply boundary_append.
  rewrite (chars_app x suf Hb), !length_app, Hpre, Hsuf.
  replace (7 <? 0)%Z with false by reflexivity.
  replace (-3 <? 0)%Z with true by reflexivity.
  set (n := List.length (chars x)).
  replace (Z.to_nat (Z.min 7 (Z.of_nat (7 + (n + 3))))) with 7 by lia.
  replace (Z.to_nat (Z.max (Z.of_nat (7 + (n + 3)) + -3) 0
                     - Z.min 7 (Z.of_nat (7 + (n + 3))))) with n by lia.
  rewrite skipn_app, Hpre, Nat.sub_diag, skipn_all2 by lia.
  cbn [skipn app]. subst n. rewrite firstn_app, Nat.sub_diag, firstn_all.
  cbn [firstn]. rewrite app_nil_r. apply concat_chars.
Qed.

(** *** File names *)

Lemma lower_char_dot (c : ascii) : lower_char c = "."%char -> c = "."%char.
Proof.
  destruct c as [[] [] [] [] [] [] [] []]; vm_compute; intro H;
    first [reflexivity | discriminate H].
Qed.

Lemma lower_append (a b : string) : lower (a ++ b) = lower a ++ lower b.
Proof. induction a as [|c a IH]; simpl; congruence. Qed.

Lemma endswith_split (s suffix : string) :
  endswith s suffix = true -> exists pre, s = pre ++ suffix.
Proof.
  induction s as [|c s IH]; cbn [endswith].
  - destruct suffix; [|discriminate].
    intros _. now exists EmptyString.
  - destruct (String.eqb_spec (String c s) suffix) as [<-|_].
    + intros _. now exists EmptyString.
    + intros H. destruct (IH H) as [pre ->]. now exists (String c pre).
Qed.

Lemma endswith_append (pre suffix : string) : endswith (pre ++ suffix) suffix = true.
Proof.
  induction pre as [|c pre IH]; cbn [endswith append].
  - destruct suffix; cbn [endswith]; now rewrite String.eqb_refl.
  - destruct (String.eqb (String c (pre ++ suffix)) suffix); [reflexivity|exact IH].
Qed.

Lemma lower_split (a : string) :
  forall s b, lower s = a ++ b ->
    exists a' b', s = a' ++ b' /\ lower a' = a /\ lower b' = b.
Proof.
  induction a as [|x a IH]; intros s b H.
  - exists EmptyString, s. auto.
  - destruct s as [|c s]; simpl in H; [discriminate|].
    injection H as Hc Hs. destruct (IH _ _ Hs) as (a' & b' & -> & Ha & Hb).
    exists (String c a'), b'. simpl. repeat split; congruence.
Qed.

Lemma occurs_cons (pat : string) (c : ascii) (s : string) :
  occurs pat (String c s) = prefix pat (String c s) || occurs pat s.
Proof. reflexivity. Qed.

Lemma prefix_cons (a b : ascii) (p s : string) :
  prefix (String a p) (String b s) = Ascii.eqb a b && prefix p s.
Proof.
  simpl. destruct (ascii_dec a b) as [->|Hne].
  - now rewrite Ascii.eqb_refl.
  - destruct (Ascii.eqb_spec a b); [contradiction|reflexivity].
Qed.

Lemma prefix_empty (s : string) : prefix EmptyString s = true.
Proof. destruct s; reflexivity. Qed.

Lemma occurs_dot_lower (s : string) :
  occurs "." (lower s) = false -> occurs "." s = false.
Proof.
  induction s as [|c s IH]; [auto|].
  simpl lower. rewrite !occurs_cons, !prefix_cons, !prefix_empty, !andb_true_r.
  intros H. apply orb_false_iff in H as [Hc Hs].
  rewrite (IH Hs), orb_false_r.
  destruct (Ascii.eqb_spec "." c) as [<-|_]; [|reflexivity].
  exact Hc.
Qed.

Lemma rpartition_no_sep (s : string) :
  occurs "." s = false -> rpartition "." s = None.
Proof.
  induction s as [|c s IH]; [reflexivity|].
  rewrite occurs_cons, prefix_cons, prefix_empty, andb_true_r.
  intros H. apply orb_false_iff in H as [Hc Hs].
  simpl. rewrite (IH Hs), Ascii.eqb_sym, Hc. reflexivity.
Qed.

(** The last separator of [pre.ext] is the one before a dot-free [ext]. *)
Lemma rpartition_last (pre ext : string) :
  occurs "." ext = false ->
  rpartition "." (pre ++ "." ++ ext) = Some (pre, ext).
Proof.
  intros Hext. induction pre as [|c pre IH]; simpl.
  - now rewrite (rpartition_no_sep _ Hext).
  - simpl in IH. now rewrite IH.
Qed.

(** A name whose lower-cased form ends in [.ext_l], for a dot-free [ext_l],
    splits at its last dot, and [rsplit] gives what stands before it. *)
Lemma rsplit1_extension (name ext_l : string) :
  endswith (lower name) ("." ++ ext_l) = true ->
  occurs "." ext_l = false ->
  exists stem ext,
    name = stem ++ "." ++ ext
    /\ occurs "." ext = false
    /\ lower ext = ext_l
    /\ rsplit1 "." name = [stem; ext].
Proof.
  intros Hend Hdot.
  destruct (endswith_split _ _ Hend) as [pre Hpre].
  destruct (lower_split _ _ _ Hpre) as (stem & tail & -> & _ & Htail).
  destruct tail as [|c ext]; simpl in Htail; [discriminate|].
  injection Htail as Hc Hext.
  apply lower_char_dot in Hc. subst c.
  assert (Hnodot : occurs "." ext = false).
  { apply occurs_dot_lower. now rewrite Hext. }
  exists stem, ext. repeat split; auto.
  unfold rsplit1.
  change (stem ++ String "."%char ext) with (stem ++ "." ++ ext).
  now rewrite (rpartition_last stem ext Hnodot).
Qed.

(** *** Replacement *)

Section Replace.
Variables (old new' : string) (n0 : ascii).
Let new := String n0 new'.

(** Where the output of a replacement shows characters that the replacement
    text does not start with, they were copied from the input. *)
Lemma replace_from_copy (p : string) :
  avoids n0 p = true ->
  forall s, prefix p (replace_from old new 0 s) = true -> prefix p s = true.
Proof.
  induction p as [|a p IH]; intros Hav s H.
  - apply prefix_empty.
  - cbn [avoids] in Hav. apply andb_true_iff in Hav as [Ha Hp].
    destruct s as [|c s]; [discriminate H|].
    cbn [replace_from] in H.
    destruct (prefix old (String c s)).
    + unfold new in H. cbn [append] in H. rewrite prefix_cons in H.
      apply andb_true_iff in H as [H _]. now rewrite H in Ha.
    + rewrite prefix_cons in H |- *.
      apply andb_true_iff in H as [Hc Hs].
      rewrite Hc. simpl. now apply IH.
Qed.

(** A pattern whose first character is not in [x] starts nowhere in [x]. *)
Lemma occurs_after (h : ascii) (p' x r : string) :
  avoids h x = true ->
  occurs (String h p') (x ++ r) = occurs (String h p') r.
Proof.
  induction x as [|c x IH]; intros Hav; [reflexivity|].
  cbn [avoids] in Hav. apply andb_true_iff in Hav as [Hc Hx].
  cbn [append]. rewrite occurs_cons, prefix_cons, Ascii.eqb_sym.
  apply negb_true_iff in Hc. rewrite Hc. simpl. now apply IH.
Qed.

(** The output of a replacement holds no occurrence of a pattern [p] that
    the replacement text cannot take part in, when [p] is the replaced
    text itself or does not occur in the input. *)
Lemma replace_from_clean (h : ascii) (p' : string) :
  avoids n0 (String h p') = true ->
  avoids h new = true ->
  forall s skip,
    String h p' = old \/ occurs (String h p') s = false ->
    occurs (String h p') (replace_from old new skip s) = false.
Proof.
  intros Hp Hnew. induction s as [|c s IH]; intros skip Hor; [reflexivity|].
  assert (Htail : String h p' = old \/ occurs (String h p') s = false).
  { destruct Hor as [Heq|Hocc]; [now left|right].
    rewrite occurs_cons in Hocc. now apply orb_false_iff in Hocc. }
  destruct skip as [|k]; cbn [replace_from]; [|now apply IH].
  destruct (prefix old (String c s)) eqn:Hmatch.
  - rewrite occurs_after by exact Hnew. now apply IH.
  - rewrite occurs_cons, (IH 0 Htail), orb_false_r.
    destruct (prefix (String h p') (String c (replace_from old new 0 s)))
      eqn:Hpre; [exfalso|reflexivity].
    rewrite prefix_cons in Hpre. apply andb_true_iff in Hpre as [Hc Hs].
    cbn [avoids] in Hp. apply andb_true_iff in Hp as [_ Hp'].
    apply (replace_from_copy p' Hp') in Hs.
    assert (Hin : prefix (String h p') (String c s) = true).
    { now rewrite prefix_cons, Hc, Hs. }
    destruct Hor as [Heq|Hocc].
    + rewrite Heq in Hin. congruence.
    + rewrite occurs_cons, Hin in Hocc. discriminate.
Qed.

End Replace.

Lemma prefix_split (p : string) :
  forall s, prefix p s = true -> exists rest, s = p ++ rest.
Proof.
  induction p as [|a p IH]; intros s H.
  - now exists s.
  - destruct s as [|c s]; [discriminate H|].
    rewrite prefix_cons in H. apply andb_true_iff in H as [Hc Hs].
    apply Ascii.eqb_eq in Hc. subst c.
    destruct (IH _ Hs) as [rest ->]. now exists rest.
Qed.

Section Match.
Variables (old new : string).

(** The characters of a match that are still to be dropped are dropped. *)
Lemma replace_from_skip (a : string) :
  forall rest,
    replace_from old new (String.length a) (a ++ rest)
    = replace_from old new 0 rest.
Proof. induction a as [|c a IH]; intros rest; simpl; auto. Qed.

(** At a match the replacement text is written and the scan goes on after
    the match. *)
Lemma replace_match (h : ascii) (old' rest : string) :
  old = String h old' ->
  prefix old (old ++ rest) = true ->
  replace old new (old ++ rest) = new ++ replace old new rest.
Proof.
  intros Hold Hpre. unfold replace.
  assert (Happ : old ++ rest = String h (old' ++ rest))
    by (rewrite Hold; reflexivity).
  rewrite Happ at 1. cbn [replace_from]. rewrite <- Happ, Hpre.
  replace (String.length old - 1) with (String.length old')
    by (rewrite Hold; simpl; lia).
  now rewrite replace_from_skip.
Qed.

End Match.

End PyFacts.

(** ** Facts about the program monad *)
Module MonadFacts.

Lemma bind_ret {A B : Type} (a : A) (k : A -> M B) (sent : list request) :
  bind (ret a) k sent = k a sent.
Proof. reflexivity. Qed.

Lemma bind_assoc {A B C : Type} (m : M A) (f : A -> M B) (g : B -> M C)
    (sent : list request) :
  bind (bind m f) g sent = bind m (fun a => bind (f a) g) sent.
Proof.
  unfold bind. destruct (m sent) as [[a|e] sent']; reflexivity.
Qed.

Lemma bind_ok {A B : Type} (m : M A) (k : A -> M B) (sent sent' : list request)
    (b : B) :
  bind m k sent = (Ok b, sent') ->
  exists a mid, m sent = (Ok a, mid) /\ k a mid = (Ok b, sent').
Proof.
  unfold bind. destruct (m sent) as [[a|e] mid]; intros H.
  - now exists a, mid.
  - discriminate.
Qed.

End MonadFacts.

(** ** The report of [score_resumes] *)
Module RankProps.
Import Rank PyFacts MonadFacts.

(** *** The header *)

Lemma flatten_keys (group : string) (ks : list string) :
  forall fc hs,
    fold_left
      (fun acc crit_key =>
         match acc with
         | (flattened_criteria, headers) =>
             ((flattened_criteria ++ [(group, crit_key)])%list,
              (headers ++ [(group ++ ": " ++ crit_key)%string])%list)
         end)
      ks (fc, hs)
    = ((fc ++ map (pair group) ks)%list,
       (hs ++ map label (map (pair group) ks))%list).
Proof.
  induction ks as [|k ks IH]; intros fc hs; simpl.
  - now rewrite !app_nil_r.
  - rewrite IH, <- !app_assoc. reflexivity.
Qed.

Lemma flatten_group_spec (fc : list (string * string)) (hs : list string)
    (item : string * value) :
  flatten_group (fc, hs) item
  = ((fc ++ pairs_of item)%list, (hs ++ map label (pairs_of item))%list).
Proof.
  destruct item as [group v].
  destruct v; simpl; rewrite ?app_nil_r; try reflexivity.
  apply flatten_keys.
Qed.

Lemma flatten_from (items : list (string * value)) :
  forall fc hs,
    fold_left flatten_group items (fc, hs)
    = ((fc ++ flat_map pairs_of items)%list,
       (hs ++ map label (flat_map pairs_of items))%list).
Proof.
  induction items as [|item items IH]; intros fc hs; simpl.
  - now rewrite !app_nil_r.
  - rewrite flatten_group_spec, IH, map_app, <- !app_assoc. reflexivity.
Qed.

Lemma flatten_spec (items : list (string * value)) :
  flatten items = (flat_map pairs_of items, map label (flat_map pairs_of items)).
Proof. unfold flatten. now rewrite flatten_from. Qed.

(** What a table returned by [score_resumes] is made of. *)
Lemma score_resumes_ok `{JsonLib} `{CompletionService} `{DocumentTextSource}
    (criteria : string) (files : list UploadFile) (sent sent' : list request)
    (t : table) :
  score_resumes criteria files sent = (Ok t, sent') ->
  exists items,
    load_criteria criteria = Ok items
    /\ csv_header t
       = ("Candidate Name" :: map label (flat_map pairs_of items)
          ++ ["Total Score"])%list
    /\ write_rows (VDict items) (flat_map pairs_of items) files [] sent
       = (Ok (csv_rows t), sent').
Proof.
  unfold score_resumes. intros Hrun.
  apply bind_ok in Hrun as (items & mid & Hload & Hrun).
  unfold pure_outcome in Hload. injection Hload as Hload <-.
  rewrite flatten_spec in Hrun.
  apply bind_ok in Hrun as (rows & mid & Hrows & Hret).
  injection Hret as <- <-.
  exists items. auto.
Qed.

(** The same, from the parts to the table. *)
Lemma score_resumes_run `{JsonLib} `{CompletionService} `{DocumentTextSource}
    (criteria : string) (files : list UploadFile) (sent : list request)
    (items : list (string * value)) :
  load_criteria criteria = Ok items ->
  score_resumes criteria files sent
  = bind (write_rows (VDict items) (flat_map pairs_of items) files [])
      (fun rows =>
         ret {| csv_header :=
                  ("Candidate Name" :: map label (flat_map pairs_of items)
                   ++ ["Total Score"])%list;
                csv_rows := rows |})
      sent.
Proof.
  intros Hload. unfold score_resumes.
  unfold bind at 1. unfold pure_outcome. rewrite Hload, flatten_spec.
  reflexivity.
Qed.

(** C4 (as amended): the header follows the insertion order of the criteria
    mapping.  The groups are taken in the order in which the mapping lists
    them, a group whose value is not a mapping is passed over, the criteria of
    a group come in insertion order, and each (group, criterion) pair gives
    one column labelled [group: criterion].  When the mapping lists the three
    tiers in the order Must, Good, Nice, this is the header by tier. *)
Theorem header_follows_insertion_order (items : list (string * value)) :
  flatten items = (flat_map pairs_of items, map label (flat_map pairs_of items))
  /\ (forall group v before after,
        items = (before ++ (group, v) :: after)%list ->
        flat_map pairs_of items
        = (flat_map pairs_of before
           ++ match v with
              | VDict group_criteria => map (pair group) (keys group_criteria)
              | _ => []
              end
           ++ flat_map pairs_of after)%list)
  /\ (forall must good nice,
        items = [("Must have", VDict must); ("Good to have", VDict good);
                 ("Nice to have", VDict nice)] ->
        snd (flatten items) = buildHeader_by_tier items).
Proof.
  split; [apply flatten_spec|split].
  - intros group v before after ->.
    rewrite flat_map_app. simpl. destruct v; reflexivity.
  - intros must good nice ->.
    rewrite flatten_spec. unfold buildHeader_by_tier. simpl.
    rewrite !app_nil_r, !map_app, !map_map. reflexivity.
Qed.

(** *** The rows *)

(** The three lookups of one cell. *)
Lemma fill_row_cons (group crit_key : string) (rest : list (string * string))
    (gpt_result : value) (row : list value) :
  fill_row ((group, crit_key) :: rest) gpt_result row
  = (scores <~ get gpt_result "scores" (VDict []);;
     group_scores <~ get scores group (VDict []);;
     score <~ get group_scores crit_key (VInt 0);;
     fill_row rest gpt_result (row ++ [score])%list)%py.
Proof. reflexivity. Qed.

(** A filled row is the row it started from and one cell per criterion. *)
Lemma fill_row_shape (flattened : list (string * string)) (gpt_result : value) :
  forall row row',
    fill_row flattened gpt_result row = Ok row' ->
    exists cells,
      row' = (row ++ cells)%list /\ List.length cells = List.length flattened.
Proof.
  induction flattened as [|[group crit_key] rest IH]; intros row row' H.
  - injection H as <-. exists []. now rewrite app_nil_r.
  - rewrite fill_row_cons in H. unfold and_then in H.
    destruct (get gpt_result "scores" (VDict [])) as [scores|]; [|discriminate].
    destruct (get scores group (VDict [])) as [group_scores|]; [|discriminate].
    destruct (get group_scores crit_key (VInt 0)) as [score|]; [|discriminate].
    destruct (IH _ _ H) as (cells & -> & Hlen).
    exists (score :: cells). rewrite <- app_assoc. simpl. auto.
Qed.

Lemma get_total (gpt_result total : value) :
  get gpt_result "total_score" (VInt 0) = Ok total ->
  total = reported_total gpt_result.
Proof.
  destruct gpt_result; simpl; try discriminate.
  intros H. now injection H as <-.
Qed.

(** A row is the candidate name, one cell per criterion, and the total the
    response reports. *)
Lemma build_row_shape (candidate_name : string)
    (flattened : list (string * string)) (gpt_result : value)
    (row : list value) :
  build_row candidate_name flattened gpt_result = Ok row ->
  exists cells,
    row = (VStr candidate_name :: cells ++ [reported_total gpt_result])%list
    /\ List.length cells = List.length flattened.
Proof.
  unfold build_row, and_then. intros H.
  destruct (fill_row flattened gpt_result [VStr candidate_name])
    as [filled|] eqn:Hfill; [|discriminate].
  destruct (get gpt_result "total_score" (VInt 0)) as [total|] eqn:Htotal;
    [|discriminate].
  injection H as <-.
  destruct (fill_row_shape _ _ _ _ Hfill) as (cells & -> & Hlen).
  exists cells. now rewrite (get_total _ _ Htotal).
Qed.

(** The three lookups of a cell give the recorded score, or 0 when a key
    is missing. *)
Lemma cell_lookups (gpt_result : value) (group crit_key : string) :
  entry_of gpt_result group crit_key <> Malformed ->
  (scores <~ get gpt_result "scores" (VDict []);;
   group_scores <~ get scores group (VDict []);;
   get group_scores crit_key (VInt 0))%py
  = Ok (cell_of gpt_result (group, crit_key)).
Proof.
  unfold cell_of, entry_of. cbn [fst snd].
  destruct gpt_result as [| | | | | |items| |]; try congruence.
  cbn [get and_then].
  destruct (lookup "scores" items) as [scores|]; [|reflexivity].
  destruct scores as [| | | | | |scores| |]; try congruence.
  cbn [get and_then].
  destruct (lookup group scores) as [group_scores|]; [|reflexivity].
  destruct group_scores as [| | | | | |group_scores| |]; try congruence.
  cbn [get and_then].
  destruct (lookup crit_key group_scores); reflexivity.
Qed.

(** They raise when the response, its entry [scores] or the entry of the
    group is not an object. *)
Lemma malformed_entry_raises (gpt_result : value) (group crit_key : string)
    (rest : list (string * string)) (row : list value) :
  entry_of gpt_result group crit_key = Malformed ->
  exists message,
    fill_row ((group, crit_key) :: rest) gpt_result row
    = Raise (AttributeError message).
Proof.
  rewrite fill_row_cons. unfold entry_of.
  destruct gpt_result as [| | | | | |items| |];
    try (intros _; eexists; reflexivity).
  cbn [get and_then].
  destruct (lookup "scores" items) as [scores|]; [|discriminate].
  destruct scores as [| | | | | |scores| |];
    try (intros _; eexists; reflexivity).
  cbn [get and_then].
  destruct (lookup group scores) as [group_scores|]; [|discriminate].
  destruct group_scores as [| | | | | |group_scores| |];
    try (intros _; eexists; reflexivity).
  destruct (lookup crit_key group_scores); discriminate.
Qed.

Lemma score_structure_entries (flattened : list (string * string))
    (gpt_result : value) :
  score_structure flattened gpt_result = true ->
  is_dict gpt_result = true
  /\ forall group crit_key,
       In (group, crit_key) flattened ->
       entry_of gpt_result group crit_key <> Malformed.
Proof.
  unfold score_structure. intros H. apply andb_true_iff in H as [Hdict Hall].
  split; [exact Hdict|].
  intros group crit_key Hin Hbad.
  rewrite forallb_forall in Hall. specialize (Hall _ Hin).
  cbn [fst snd] in Hall. rewrite Hbad in Hall. discriminate.
Qed.

Lemma fill_row_structure (gpt_result : value) :
  forall flattened row,
    (forall group crit_key,
       In (group, crit_key) flattened ->
       entry_of gpt_result group crit_key <> Malformed) ->
    fill_row flattened gpt_result row
    = Ok (row ++ map (cell_of gpt_result) flattened)%list.
Proof.
  induction flattened as [|[group crit_key] rest IH]; intros row Hall.
  - simpl. now rewrite app_nil_r.
  - rewrite fill_row_cons.
    pose proof (cell_lookups gpt_result group crit_key
                  (Hall _ _ (or_introl eq_refl))) as Hcell.
    unfold and_then in Hcell |- *.
    destruct (get gpt_result "scores" (VDict [])) as [scores|]; [|discriminate].
    destruct (get scores group (VDict [])) as [group_scores|]; [|discriminate].
    rewrite Hcell, IH, <- app_assoc; [reflexivity|].
    intros g k Hin. apply Hall. now right.
Qed.

Lemma build_row_structure (candidate_name : string)
    (flattened : list (string * string)) (gpt_result : value) :
  score_structure flattened gpt_result = true ->
  build_row candidate_name flattened gpt_result
  = Ok (VStr candidate_name :: map (cell_of gpt_result) flattened
        ++ [reported_total gpt_result])%list.
Proof.
  intros Hshape.
  destruct (score_structure_entries _ _ Hshape) as [Hdict Hall].
  unfold build_row.
  rewrite (fill_row_structure _ _ _ Hall). cbn [and_then].
  destruct gpt_result; try discriminate. reflexivity.
Qed.

(** C7 (as amended): a pair missing from the score structure of a candidate
    gives the cell 0 and no error, provided the response is an object in
    which each flattened pair is recorded or missing (its entry [scores], the
    entry of the tier or the entry of the criterion is not there).  For every
    such response the row is built: it has the candidate name, one cell per
    flattened pair and a last cell; the cell of a missing pair is 0, the cell
    of a recorded pair is its score, and the last cell is the reported
    total. *)
Theorem missing_score_is_zero (candidate_name : string)
    (flattened : list (string * string)) (gpt_result : value) :
  score_structure flattened gpt_result = true ->
  exists row,
    build_row candidate_name flattened gpt_result = Ok row
    /\ List.length row = List.length flattened + 2
    /\ (forall i group crit_key,
          nth_error flattened i = Some (group, crit_key) ->
          entry_of gpt_result group crit_key = Missing ->
          nth_error row (S i) = Some (VInt 0))
    /\ (forall i group crit_key score,
          nth_error flattened i = Some (group, crit_key) ->
          entry_of gpt_result group crit_key = Recorded score ->
          nth_error row (S i) = Some score)
    /\ nth_error row (S (List.length flattened))
       = Some (reported_total gpt_result).
Proof.
  intros Hshape. eexists. split; [now apply build_row_structure|].
  assert (Hcell : forall i group crit_key,
             nth_error flattened i = Some (group, crit_key) ->
             nth_error
               (VStr candidate_name :: map (cell_of gpt_result) flattened
                ++ [reported_total gpt_result])%list (S i)
             = Some (cell_of gpt_result (group, crit_key))).
  { intros i group crit_key Hi. cbn [nth_error].
    rewrite nth_error_app1.
    - now rewrite nth_error_map, Hi.
    - rewrite length_map. apply nth_error_Some. congruence. }
  repeat split.
  - cbn [List.length]. rewrite length_app, length_map. simpl. lia.
  - intros i group crit_key Hi Hnone.
    rewrite (Hcell _ _ _ Hi). unfold cell_of. cbn [fst snd]. now rewrite Hnone.
  - intros i group crit_key score Hi Hsome.
    rewrite (Hcell _ _ _ Hi). unfold cell_of. cbn [fst snd]. now rewrite Hsome.
  - cbn [nth_error]. rewrite nth_error_app2; rewrite length_map; [|lia].
    now rewrite Nat.sub_diag.
Qed.

(** A tier whose value is not an object is not a missing pair: the lookup
    raises. *)
Example tier_that_is_no_object_raises :
  entry_of
    (VDict [("scores", VDict [("Must have", VNone)]); ("total_score", VInt 5)])
    "Must have" "2 yrs Python" = Malformed
  /\ build_row "candidate1" [("Must have", "2 yrs Python")]
       (VDict [("scores", VDict [("Must have", VNone)]);
               ("total_score", VInt 5)])
     = Raise (AttributeError "'NoneType' object has no attribute 'get'").
Proof. split; reflexivity. Qed.

(** C5 (as amended): the Total Score cell of a row is the total the
    response reports (its entry [total_score], or 0 without one), appended
    as it is; it is not computed from the score cells of the row. *)
Theorem total_cell_is_reported_total (candidate_name : string)
    (flattened : list (string * string)) (gpt_result : value)
    (row : list value) :
  build_row candidate_name flattened gpt_result = Ok row ->
  exists cells,
    row = (VStr candidate_name :: cells ++ [reported_total gpt_result])%list
    /\ List.length cells = List.length flattened
    /\ last row VNone = reported_total gpt_result.
Proof.
  intros Hrow.
  destruct (build_row_shape _ _ _ _ Hrow) as (cells & -> & Hlen).
  exists cells. repeat split; auto.
  change (VStr candidate_name :: cells ++ [reported_total gpt_result])%list
    with ((VStr candidate_name :: cells) ++ [reported_total gpt_result])%list.
  apply last_last.
Qed.

(** *** The loop over the files *)

Section Loop.
Context {J : JsonLib} {C : CompletionService} {D : DocumentTextSource}.
Variables (criteria_data : value) (flattened : list (string * string)).

Lemma reader_of_none (f : UploadFile) :
  reader_of f = None <-> supported f = false.
Proof.
  unfold reader_of, supported.
  destruct (endswith (lower (filename f)) ".pdf");
    destruct (endswith (lower (filename f)) ".docx"); simpl;
    split; intros Heq; congruence.
Qed.

(** The document readers send no request. *)
Lemma reader_sends_nothing (f : UploadFile) (read : M string)
    (sent : list request) :
  reader_of f = Some read -> snd (read sent) = sent.
Proof.
  unfold reader_of, extract_text_from_pdf, extract_text_from_docx.
  destruct (endswith (lower (filename f)) ".pdf").
  - intros Heq. injection Heq as <-.
    now destruct (PdfReader_pages (file f)).
  - destruct (endswith (lower (filename f)) ".docx"); [|discriminate].
    intros Heq. injection Heq as <-.
    now destruct (Document_paragraphs (file f)).
Qed.

Lemma reader_failure (f : UploadFile) (detail : string) :
  extraction_failure f = Some detail ->
  exists read,
    reader_of f = Some read
    /\ forall sent, read sent = (Raise (HTTPException 400 detail), sent).
Proof.
  unfold extraction_failure, reader_of, extract_text_from_pdf,
    extract_text_from_docx.
  destruct (endswith (lower (filename f)) ".pdf").
  - destruct (PdfReader_pages (file f)) as [pages|e]; [discriminate|].
    intros Heq. injection Heq as <-. eexists. split; reflexivity.
  - destruct (endswith (lower (filename f)) ".docx"); [|discriminate].
    destruct (Document_paragraphs (file f)) as [paragraphs|e]; [discriminate|].
    intros Heq. injection Heq as <-. eexists. split; reflexivity.
Qed.

(** A file of an unsupported type leaves the rows and the requests as they
    are. *)
Lemma loop_body_unsupported (f : UploadFile) (written : list (list value))
    (sent : list request) :
  supported f = false ->
  loop_body criteria_data flattened written f sent = (Ok written, sent).
Proof.
  intros Hf. apply reader_of_none in Hf. unfold loop_body. now rewrite Hf.
Qed.

(** A file whose text cannot be extracted ends the loop with a 400. *)
Lemma loop_body_failure (f : UploadFile) (detail : string)
    (written : list (list value)) (sent : list request) :
  extraction_failure f = Some detail ->
  loop_body criteria_data flattened written f sent
  = (Raise (HTTPException 400 detail), sent).
Proof.
  intros Hf. destruct (reader_failure _ _ Hf) as (read & Hread & Hfail).
  unfold loop_body. rewrite Hread. unfold bind. now rewrite Hfail.
Qed.

(** A file that passes the body was skipped, or gave one more row, which
    opens with the name taken from the file name. *)
Lemma loop_body_ok (f : UploadFile) (written written' : list (list value))
    (sent sent' : list request) :
  loop_body criteria_data flattened written f sent = (Ok written', sent') ->
  (supported f = false /\ written' = written /\ sent' = sent)
  \/ (supported f = true
      /\ exists gpt_result cells,
           written'
           = (written
              ++ [VStr (candidate_name_of (filename f)) :: cells
                  ++ [reported_total gpt_result]])%list
           /\ List.length cells = List.length flattened).
Proof.
  unfold loop_body.
  destruct (reader_of f) as [read|] eqn:Hread.
  - intros Hrun. right. split.
    { destruct (supported f) eqn:Hs; [reflexivity|].
      apply reader_of_none in Hs. congruence. }
    apply bind_ok in Hrun as (text & mid1 & _ & Hrun).
    apply bind_ok in Hrun as (gpt_result & mid2 & _ & Hrun).
    apply bind_ok in Hrun as (row & mid3 & Hrow & Hret).
    injection Hret as <- <-.
    unfold pure_outcome in Hrow. injection Hrow as Hrow _.
    destruct (build_row_shape _ _ _ _ Hrow) as (cells & -> & Hlen).
    now exists gpt_result, cells.
  - intros Hrun. injection Hrun as <- <-. left.
    now apply reader_of_none in Hread.
Qed.

Lemma write_rows_cons (f : UploadFile) (rest : list UploadFile)
    (written : list (list value)) (sent : list request) :
  write_rows criteria_data flattened (f :: rest) written sent
  = bind (loop_body criteria_data flattened written f)
      (write_rows criteria_data flattened rest) sent.
Proof. reflexivity. Qed.

(** The loop over a batch is the loop over its first files followed by the
    loop over the others. *)
Lemma write_rows_app (pre post : list UploadFile) :
  forall written sent,
    write_rows criteria_data flattened (pre ++ post) written sent
    = bind (write_rows criteria_data flattened pre written)
        (write_rows criteria_data flattened post) sent.
Proof.
  induction pre as [|f pre IH]; intros written sent; [reflexivity|].
  cbn [app]. rewrite write_rows_cons.
  change (write_rows criteria_data flattened (f :: pre) written)
    with (bind (loop_body criteria_data flattened written f)
            (write_rows criteria_data flattened pre)).
  rewrite bind_assoc. unfold bind at 1 2.
  destruct (loop_body criteria_data flattened written f sent) as [[w|e] mid];
    [apply IH|reflexivity].
Qed.

Lemma write_rows_skip (pre post : list UploadFile) (f : UploadFile) :
  supported f = false ->
  forall written sent,
    write_rows criteria_data flattened (pre ++ f :: post) written sent
    = write_rows criteria_data flattened (pre ++ post) written sent.
Proof.
  intros Hf written sent. rewrite !write_rows_app. unfold bind.
  destruct (write_rows criteria_data flattened pre written sent)
    as [[w|e] mid]; [|reflexivity].
  rewrite write_rows_cons. unfold bind.
  now rewrite (loop_body_unsupported f w mid Hf).
Qed.

Lemma write_rows_failure (f : UploadFile) (detail : string)
    (files : list UploadFile) :
  extraction_failure f = Some detail ->
  In f files ->
  forall written sent,
    exists e sent',
      write_rows criteria_data flattened files written sent = (Raise e, sent').
Proof.
  intros Hf. induction files as [|f0 rest IH]; intros Hin written sent.
  - destruct Hin.
  - rewrite write_rows_cons. unfold bind.
    destruct Hin as [->|Hin].
    + rewrite (loop_body_failure f detail written sent Hf). eauto.
    + destruct (loop_body criteria_data flattened written f0 sent)
        as [[w|e] mid]; [now apply IH|eauto].
Qed.

(** The first cells of the rows are the names taken from the names of the
    supported files, in the order of the upload. *)
Lemma write_rows_names (files : list UploadFile) :
  forall written sent written' sent',
    write_rows criteria_data flattened files written sent = (Ok written', sent') ->
    map (hd VNone) written'
    = (map (hd VNone) written
       ++ map (fun f => VStr (candidate_name_of (filename f)))
            (filter supported files))%list.
Proof.
  induction files as [|f rest IH]; intros written sent written' sent' Hrun.
  - injection Hrun as <- _. simpl. now rewrite app_nil_r.
  - rewrite write_rows_cons in Hrun.
    apply bind_ok in Hrun as (w & mid & Hbody & Hrest).
    rewrite (IH _ _ _ _ Hrest). cbn [filter].
    destruct (loop_body_ok _ _ _ _ _ Hbody)
      as [(Hs & -> & _)|(Hs & gpt_result & cells & -> & _)]; rewrite Hs.
    + reflexivity.
    + rewrite map_app, <- app_assoc. reflexivity.
Qed.

End Loop.

(** *** The batch *)

(** C1 (as amended): a resume whose document-to-text step fails aborts the
    batch.  [score_resumes] then returns no table at all, whatever the other
    files are; when the files before it give a table, the batch ends with the
    400 of that resume, after the requests made for the earlier files and
    without processing the later ones. *)
Theorem extraction_failure_aborts_batch
    `{JsonLib} `{CompletionService} `{DocumentTextSource}
    (criteria : string) (pre post : list UploadFile) (f : UploadFile)
    (detail : string) (sent : list request) :
  extraction_failure f = Some detail ->
  (exists e sent',
     score_resumes criteria (pre ++ f :: post) sent = (Raise e, sent'))
  /\ (forall t sent',
        score_resumes criteria pre sent = (Ok t, sent') ->
        score_resumes criteria (pre ++ f :: post) sent
        = (Raise (HTTPException 400 detail), sent')).
Proof.
  intros Hf. split.
  - destruct (load_criteria criteria) as [items|e] eqn:Hload.
    + rewrite (score_resumes_run _ _ _ _ Hload). unfold bind.
      destruct (write_rows_failure (VDict items) (flat_map pairs_of items)
                  f detail (pre ++ f :: post) Hf
                  (in_elt f pre post) [] sent) as (e & sent' & ->).
      eauto.
    + unfold score_resumes, bind, pure_outcome. rewrite Hload. eauto.
  - intros t sent' Hpre.
    destruct (score_resumes_ok _ _ _ _ _ Hpre) as (items & Hload & _ & Hrows).
    rewrite (score_resumes_run _ _ _ _ Hload). unfold bind.
    rewrite write_rows_app. unfold bind. rewrite Hrows.
    rewrite write_rows_cons. unfold bind.
    now rewrite (loop_body_failure _ _ f detail (csv_rows t) sent' Hf).
Qed.

(** C8: the Candidate Name cell is the file name up to its last dot.  In a
    table returned by [score_resumes] the first cells of the rows are, in the
    order of the upload, the names [candidate_name_of] takes from the names
    of the supported files; such a file name is that name, a dot and an
    extension without dot; and two completion services, whatever candidate
    names they return, give the same first cells. *)
Theorem candidate_name_is_file_stem
    `{JsonLib} `{DocumentTextSource} (C C' : CompletionService)
    (criteria : string) (files : list UploadFile)
    (sent sent' : list request) (t : table) :
  @score_resumes _ C _ criteria files sent = (Ok t, sent') ->
  map (hd VNone) (csv_rows t)
  = map (fun f => VStr (candidate_name_of (filename f)))
      (filter supported files)
  /\ (forall f, supported f = true ->
        exists ext,
          filename f = candidate_name_of (filename f) ++ "." ++ ext
          /\ occurs "." ext = false)
  /\ (forall sent0 sent0' t',
        @score_resumes _ C' _ criteria files sent0 = (Ok t', sent0') ->
        map (hd VNone) (csv_rows t') = map (hd VNone) (csv_rows t)).
Proof.
  intros Hrun.
  assert (Hnames : forall (S : CompletionService) s s' u,
             @score_resumes _ S _ criteria files s = (Ok u, s') ->
             map (hd VNone) (csv_rows u)
             = map (fun f => VStr (candidate_name_of (filename f)))
                 (filter supported files)).
  { intros S s s' u Hu.
    destruct (score_resumes_ok _ _ _ _ _ Hu) as (items & _ & _ & Hrows).
    now rewrite (write_rows_names _ _ _ _ _ _ _ Hrows). }
  split; [now apply (Hnames C sent sent')|split].
  - intros f Hf. unfold supported in Hf. apply orb_true_iff in Hf.
    assert (Hext : exists ext_l,
               endswith (lower (filename f)) ("." ++ ext_l) = true
               /\ occurs "." ext_l = false).
    { destruct Hf as [Hf|Hf]; [exists "pdf"|exists "docx"]; auto. }
    destruct Hext as (ext_l & Hend & Hdot).
    destruct (rsplit1_extension _ _ Hend Hdot)
      as (stem & ext & Hname & Hnodot & _ & Hsplit).
    exists ext. unfold candidate_name_of. rewrite Hsplit. simpl. auto.
  - intros sent0 sent0' t' Hrun'.
    rewrite (Hnames C' _ _ _ Hrun'). symmetry.
    now apply (Hnames C sent sent').
Qed.

(** C9: a file whose name ends in neither [.pdf] nor [.docx], in any case of
    the letters, is skipped without a trace.  The body of the loop leaves
    the rows and the requests as they are and raises nothing, so the batch
    with the file gives what the batch without it gives: the same table or
    error after the same requests. *)
Theorem unsupported_file_is_skipped
    `{JsonLib} `{CompletionService} `{DocumentTextSource} (f : UploadFile) :
  endswith (lower (filename f)) ".pdf" = false ->
  endswith (lower (filename f)) ".docx" = false ->
  (forall criteria_data flattened written sent,
     loop_body criteria_data flattened written f sent = (Ok written, sent))
  /\ (forall criteria pre post sent,
        score_resumes criteria (pre ++ f :: post) sent
        = score_resumes criteria (pre ++ post) sent).
Proof.
  intros Hpdf Hdocx.
  assert (Hf : supported f = false).
  { unfold supported. now rewrite Hpdf, Hdocx. }
  split.
  - intros. now apply loop_body_unsupported.
  - intros criteria pre post sent.
    destruct (load_criteria criteria) as [items|e] eqn:Hload.
    + rewrite !(score_resumes_run _ _ _ _ Hload). unfold bind.
      now rewrite (write_rows_skip _ _ pre post f Hf).
    + unfold score_resumes, bind, pure_outcome. now rewrite Hload.
Qed.

(** *** The score evaluator *)


(** C6 (as amended): a top-level key other than the three tier names is
    kept, and it is ignored by the report only when its value is not a
    mapping.  The extractor returns the structure its reader parsed and the
    scorer takes the mapping under [criteria] of the payload, both with all
    their keys; in the report an item whose value is not a mapping adds no
    column (the flattening is that of the criteria without the item), while
    an item whose value is a mapping adds, whatever its key, one column and
    one flattened pair per criterion, hence one cell in every row. *)
Theorem extra_key_columns `{JsonLib} `{AstLib}
    (before after : list (string * value)) (key : string) (v : value) :
  (forall text parsed,
     Extract.parse_criteria text = Returned parsed ->
     json_loads (Extract.normalize text) = Returned parsed
     \/ literal_eval text = Returned parsed)
  /\ (forall criteria items,
        load_criteria criteria = Ok items ->
        exists payload,
          json_loads criteria = Returned (VDict payload)
          /\ lookup "criteria" payload = Some (VDict items))
  /\ (is_dict v = false ->
      flatten (before ++ (key, v) :: after) = flatten (before ++ after))
  /\ (forall group_criteria crit_key,
        v = VDict group_criteria ->
        In crit_key (keys group_criteria) ->
        In (key, crit_key) (fst (flatten (before ++ (key, v) :: after)))
        /\ In (key ++ ": " ++ crit_key)
             (snd (flatten (before ++ (key, v) :: after)))
        /\ forall candidate_name gpt_result row,
             build_row candidate_name
               (fst (flatten (before ++ (key, v) :: after))) gpt_result
             = Ok row ->
             List.length row
             = List.length (flat_map pairs_of before)
               + List.length (keys group_criteria)
               + List.length (flat_map pairs_of after) + 2).
Proof.
  split; [|split; [|split]].
  - intros text parsed. unfold Extract.parse_criteria.
    destruct (json_loads (Extract.normalize text)); auto.
  - intros criteria items. unfold load_criteria.
    destruct (json_loads criteria) as [payload|e] eqn:Hload; [|discriminate].
    destruct payload as [| | | | | |payload| |]; try discriminate.
    cbn [get].
    destruct (lookup "criteria" payload) as [w|] eqn:Hget; [|discriminate].
    destruct w; try discriminate.
    intros Heq. injection Heq as <-. now exists payload.
  - intros Hv. rewrite !flatten_spec, !flat_map_app. cbn [flat_map].
    destruct v; try discriminate; reflexivity.
  - intros group_criteria crit_key -> Hin.
    rewrite flatten_spec, flat_map_app. cbn [flat_map pairs_of fst snd].
    assert (Hpair : In (key, crit_key)
                      (flat_map pairs_of before
                       ++ map (pair key) (keys group_criteria)
                       ++ flat_map pairs_of after)%list).
    { apply in_or_app. right. apply in_or_app. left. now apply in_map. }
    split; [exact Hpair|split].
    + apply (in_map label) in Hpair. exact Hpair.
    + intros candidate_name gpt_result row Hrow.
      destruct (build_row_shape _ _ _ _ Hrow) as (cells & -> & Hlen).
      cbn [List.length]. rewrite length_app, Hlen, !length_app, length_map.
      simpl. lia.
Qed.

(** *** Runs on concrete batches *)

Section Runs.
Import Fixture.

(** C1, counterexample: in the batch of [candidate1.pdf], which is
    readable, and [broken.pdf], which is not, the document-to-text step fails
    for exactly one resume; the batch ends with the 400 of that resume and
    there is no table of one row. *)
Lemma one_unreadable_resume_gives_no_table :
  @extraction_failure text_files candidate1 = None
  /\ @extraction_failure text_files broken
     = Some "Error processing PDF: EOF marker not found"
  /\ fst (run_score_resumes [scores_8_total_8] criteria_python
            [candidate1; broken])
     = Raise (HTTPException 400 "Error processing PDF: EOF marker not found")
  /\ ~ (exists t,
          fst (run_score_resumes [scores_8_total_8] criteria_python
                 [candidate1; broken]) = Ok t
          /\ List.length (csv_rows t) = 1).
Proof.
  repeat split; try (vm_compute; reflexivity).
  intros (t & Ht & _). vm_compute in Ht. discriminate Ht.
Qed.

Lemma extraction_failure_aborts_batch_witness :
  @extraction_failure text_files broken
  = Some "Error processing PDF: EOF marker not found"
  /\ run_score_resumes [scores_8_total_8] criteria_python [candidate1; broken]
     = (Raise (HTTPException 400 "Error processing PDF: EOF marker not found"),
        snd (run_score_resumes [scores_8_total_8] criteria_python [candidate1])).
Proof.
  split; [reflexivity|].
  refine (proj2 (@extraction_failure_aborts_batch reference_json
                   (scripted [scores_8_total_8]) text_files criteria_python
                   [candidate1] [] broken _ [] eq_refl)
            {| csv_header := ["Candidate Name"; "Must have: 2 yrs Python";
                              "Total Score"];
               csv_rows := [[VStr "candidate1"; VInt 8; VInt 8]] |} _ _).
  vm_compute. reflexivity.
Defined.


(** C4, counterexample: for the criteria that list Nice before Must the
    header of the report is not the header by tier. *)
Lemma header_of_nice_first_is_not_by_tier :
  @load_criteria reference_json criteria_nice_first = Ok items_nice_first
  /\ snd (flatten items_nice_first)
     = ["Nice to have: AWS"; "Must have: Python"]
  /\ buildHeader_by_tier items_nice_first
     = ["Must have: Python"; "Nice to have: AWS"]
  /\ snd (flatten items_nice_first) <> buildHeader_by_tier items_nice_first.
Proof.
  repeat split; try (vm_compute; reflexivity).
  vm_compute. discriminate.
Qed.

(** C5, counterexample: the response scores the only criterion 8 and
    reports the total 5; the row has the cells 8 and 5. *)
Lemma total_cell_differs_from_sum :
  fst (run_score_resumes [scores_8_total_5] criteria_python [candidate1])
  = Ok {| csv_header := ["Candidate Name"; "Must have: 2 yrs Python";
                         "Total Score"];
          csv_rows := [[VStr "candidate1"; VInt 8; VInt 5]] |}
  /\ sum_cells [VInt 8] = Some 8%Z
  /\ VInt 5 <> VInt 8.
Proof.
  repeat split; try (vm_compute; reflexivity). discriminate.
Qed.

Lemma total_cell_is_reported_total_witness :
  build_row "candidate1" [("Must have", "2 yrs Python")] response_8_total_5
  = Ok [VStr "candidate1"; VInt 8; VInt 5]
  /\ exists cells,
       [VStr "candidate1"; VInt 8; VInt 5]
       = (VStr "candidate1" :: cells ++ [reported_total response_8_total_5])%list
       /\ List.length cells = 1
       /\ last [VStr "candidate1"; VInt 8; VInt 5] VNone
          = reported_total response_8_total_5.
Proof.
  split; [reflexivity|].
  exact (total_cell_is_reported_total "candidate1"
           [("Must have", "2 yrs Python")] response_8_total_5
           [VStr "candidate1"; VInt 8; VInt 5] eq_refl).
Defined.

(** C6, counterexample: the group [Bonus] is none of the three tiers, and
    the report has a column and a cell for its criterion. *)
Lemma bonus_group_gives_a_column :
  fst (run_score_resumes [scores_with_bonus] criteria_with_bonus [candidate1])
  = Ok {| csv_header := ["Candidate Name"; "Must have: Python";
                         "Bonus: Referral"; "Total Score"];
          csv_rows := [[VStr "candidate1"; VInt 8; VInt 3; VInt 11]] |}
  /\ ~ In "Bonus" tier_labels.
Proof.
  split; [vm_compute; reflexivity|].
  intros [H|[H|[H|[]]]]; discriminate H.
Qed.

(** C7, counterexample: the response scores the tier [Good to have] with a
    number and leaves the tier [Must have] out.  The pair of [Must have] is
    missing from the score structure, and yet no row is built: the lookup of
    the other pair raises, and so does the batch. *)
Lemma missing_pair_beside_a_tier_that_is_no_object :
  @load_criteria reference_json criteria_two_tiers = Ok items_two_tiers
  /\ fst (flatten items_two_tiers)
     = [("Must have", "Python"); ("Good to have", "AWS")]
  /\ entry_of response_good_3 "Must have" "Python" = Missing
  /\ build_row "candidate1" (fst (flatten items_two_tiers)) response_good_3
     = Raise (AttributeError "'int' object has no attribute 'get'")
  /\ fst (run_score_resumes [scores_good_3] criteria_two_tiers [candidate1])
     = Raise (AttributeError "'int' object has no attribute 'get'").
Proof. repeat split; vm_compute; reflexivity. Qed.

Lemma missing_score_is_zero_witness :
  score_structure [("Must have", "2 yrs Python")] scores_without_python = true
  /\ exists row,
       build_row "candidate1" [("Must have", "2 yrs Python")]
         scores_without_python = Ok row
       /\ nth_error row 1 = Some (VInt 0)
       /\ nth_error row 2 = Some (VInt 0).
Proof.
  split; [reflexivity|].
  destruct (missing_score_is_zero "candidate1"
              [("Must have", "2 yrs Python")] scores_without_python eq_refl)
    as (row & Hrow & _ & Hzero & _ & Htotal).
  exists row. repeat split.
  - exact Hrow.
  - exact (Hzero 0 "Must have" "2 yrs Python" eq_refl eq_refl).
  - exact Htotal.
Defined.

Lemma candidate_name_is_file_stem_witness :
  fst (run_score_resumes [scores_8_total_8; scores_8_total_5] criteria_python
         [notes; candidate1; candidate2])
  = Ok {| csv_header := ["Candidate Name"; "Must have: 2 yrs Python";
                         "Total Score"];
          csv_rows := [[VStr "candidate1"; VInt 8; VInt 8];
                       [VStr "Jane.Doe.CV"; VInt 8; VInt 5]] |}
  /\ map (hd VNone)
       [[VStr "candidate1"; VInt 8; VInt 8];
        [VStr "Jane.Doe.CV"; VInt 8; VInt 5]]
     = [VStr "candidate1"; VStr "Jane.Doe.CV"].
Proof.
  split; [vm_compute; reflexivity|].
  refine (proj1 (@candidate_name_is_file_stem reference_json text_files
                   (scripted [scores_8_total_8; scores_8_total_5])
                   (scripted [])
                   criteria_python [notes; candidate1; candidate2] []
                   (snd (run_score_resumes
                           [scores_8_total_8; scores_8_total_5]
                           criteria_python [notes; candidate1; candidate2]))
                   {| csv_header := ["Candidate Name";
                                     "Must have: 2 yrs Python"; "Total Score"];
                      csv_rows := [[VStr "candidate1"; VInt 8; VInt 8];
                                   [VStr "Jane.Doe.CV"; VInt 8; VInt 5]] |}
                   _)).
  vm_compute. reflexivity.
Defined.

Lemma unsupported_file_is_skipped_witness :
  endswith (lower (filename notes)) ".pdf" = false
  /\ endswith (lower (filename notes)) ".docx" = false
  /\ run_score_resumes [scores_8_total_8] criteria_python [notes; candidate1]
     = run_score_resumes [scores_8_total_8] criteria_python [candidate1].
Proof.
  split; [reflexivity|split; [reflexivity|]].
  exact (proj2 (@unsupported_file_is_skipped reference_json
                  (scripted [scores_8_total_8]) text_files notes
                  eq_refl eq_refl)
           criteria_python [] [candidate1] []).
Defined.

End Runs.

End RankProps.

(** ** The parser of [extract_criteria_from_text] *)
Module ExtractProps.
Import Extract PyFacts MonadFacts.

(** A text in which [old] does not occur is left as it is. *)
Lemma replace_absent (old new s : string) :
  occurs old s = false -> replace old new s = s.
Proof.
  unfold replace. induction s as [|c s IH]; [reflexivity|].
  rewrite occurs_cons. intros H. apply orb_false_iff in H as [Hpre Hocc].
  cbn [replace_from]. rewrite Hpre. f_equal. now apply IH.
Qed.

(** No [True] and no [False] is left in a normalized text. *)
Lemma normalize_clean (s : string) :
  occurs "True" (normalize s) = false /\ occurs "False" (normalize s) = false.
Proof.
  unfold normalize, replace. split.
  - apply (replace_from_clean "False" "alse" "f" "T" "rue");
      [reflexivity|reflexivity|right].
    apply (replace_from_clean "True" "rue" "t" "T" "rue");
      [reflexivity|reflexivity|now left].
  - apply (replace_from_clean "False" "alse" "f" "F" "alse");
      [reflexivity|reflexivity|now left].
Qed.

(** *** The normalization, occurrence by occurrence *)

(** A word whose first character is not in the text starts nowhere in it. *)
Lemma respell_word_skip (h letter : ascii) (word' x : string) :
  avoids h x = true ->
  forall rest,
    respell_word (String h word') letter (x ++ rest)
    = x ++ respell_word (String h word') letter rest.
Proof.
  induction x as [|c x IH]; intros Hav rest; [reflexivity|].
  cbn [avoids] in Hav. apply andb_true_iff in Hav as [Hc Hx].
  cbn [append respell_word]. rewrite prefix_cons, Ascii.eqb_sym.
  apply negb_true_iff in Hc. rewrite Hc. cbn [andb]. now rewrite IH.
Qed.

(** The replacement of a word by the word with another first character
    changes the first character of every occurrence and nothing else. *)
Lemma replace_respell_word (h letter : ascii) (word' : string) :
  avoids h word' = true ->
  forall n s,
    String.length s <= n ->
    replace (String h word') (String letter word') s
    = respell_word (String h word') letter s.
Proof.
  intros Hav. induction n as [|n IH]; intros s Hlen.
  - destruct s; [reflexivity|simpl in Hlen; lia].
  - destruct s as [|c s]; [reflexivity|].
    destruct (prefix (String h word') (String c s)) eqn:Hpre.
    + destruct (prefix_split _ _ Hpre) as [rest Heq].
      rewrite Heq in Hpre |- *.
      rewrite (replace_match _ _ h word' rest eq_refl Hpre).
      change (String h word' ++ rest) with (String h (word' ++ rest)) in *.
      cbn [respell_word]. rewrite Hpre, (respell_word_skip _ _ _ _ Hav).
      cbn [append]. do 2 f_equal. apply IH.
      injection Heq as _ Heq. simpl in Hlen.
      rewrite Heq, length_append in Hlen. lia.
    + unfold replace. cbn [replace_from respell_word]. rewrite Hpre.
      f_equal. apply IH. simpl in Hlen. lia.
Qed.

(** A respelling does not touch a word that holds neither the character it
    replaces nor the one it writes. *)
Lemma prefix_respell_word (h letter : ascii) (word' p : string) :
  avoids h p = true -> avoids letter p = true ->
  forall s,
    prefix p (respell_word (String h word') letter s) = prefix p s.
Proof.
  induction p as [|a p IH]; intros Hh Hl s.
  - now rewrite !prefix_empty.
  - cbn [avoids] in Hh, Hl.
    apply andb_true_iff in Hh as [Hah Hh], Hl as [Hal Hl].
    apply negb_true_iff in Hah, Hal.
    destruct s as [|c s]; [reflexivity|].
    cbn [respell_word]. rewrite !(prefix_cons a), (IH Hh Hl).
    destruct (prefix (String h word') (String c s)) eqn:Hpre; [|reflexivity].
    rewrite prefix_cons in Hpre. apply andb_true_iff in Hpre as [Hc _].
    apply Ascii.eqb_eq in Hc. subst c. now rewrite Hah, Hal.
Qed.

(** The two replacements of the code are the respelling of every
    occurrence of the two words. *)
Lemma normalize_respell (s : string) : normalize s = respell s.
Proof.
  unfold normalize.
  rewrite (replace_respell_word "T" "t" "rue" eq_refl _ s (le_n _)).
  rewrite (replace_respell_word "F" "f" "alse" eq_refl _ _ (le_n _)).
  induction s as [|c s IH]; [reflexivity|].
  cbn [respell_word respell]. rewrite IH. f_equal.
  change (String (if prefix "True" (String c s) then "t"%char else c)
            (respell_word "True" "t" s))
    with (respell_word "True" "t" (String c s)).
  rewrite (prefix_respell_word "T" "t" "rue" "False" eq_refl eq_refl).
  destruct (prefix "True" (String c s)) eqn:HT; [|reflexivity].
  rewrite prefix_cons in HT |- *. apply andb_true_iff in HT as [Hc _].
  apply Ascii.eqb_eq in Hc. subst c. reflexivity.
Qed.

(** No occurrence of one of the two words begins in a text and ends in the
    occurrence that follows the text. *)
Lemma prefix_before_word (w : string) (word rest : string) :
  (w = "True" \/ w = "False") ->
  (word = "True" \/ word = "False") ->
  forall c x,
    prefix w (String c (x ++ word ++ rest)) = prefix w (String c x).
Proof.
  intros Hw Hword c x.
  destruct x as [|c1 [|c2 [|c3 [|c4 x]]]];
    destruct Hw as [-> | ->]; destruct Hword as [-> | ->];
    cbn [append]; rewrite ?prefix_cons, ?prefix_empty;
    repeat match goal with
           | |- context [Ascii.eqb ?a ?b] =>
               is_var b; destruct (Ascii.eqb a b); cbn [andb]
           end;
    reflexivity || (cbn; reflexivity).
Qed.

Lemma respell_before_word (word rest : string) :
  (word = "True" \/ word = "False") ->
  forall x, respell (x ++ word ++ rest) = respell x ++ respell (word ++ rest).
Proof.
  intros Hword. induction x as [|c x IH]; [reflexivity|].
  cbn [append respell]. rewrite IH.
  now rewrite !(prefix_before_word _ word rest) by auto.
Qed.

(** An occurrence of [True] is respelled [true], one of [False] is
    respelled [false], and the text before and the text after are
    normalized on their own. *)
Lemma normalize_True (a b : string) :
  normalize (a ++ "True" ++ b) = normalize a ++ "true" ++ normalize b.
Proof.
  rewrite !normalize_respell, (respell_before_word "True" b) by auto.
  f_equal. cbn. destruct b; reflexivity.
Qed.

Lemma normalize_False (a b : string) :
  normalize (a ++ "False" ++ b) = normalize a ++ "false" ++ normalize b.
Proof.
  rewrite !normalize_respell, (respell_before_word "False" b) by auto.
  f_equal. cbn. destruct b; reflexivity.
Qed.

(** C3 (as amended): the spellings are normalized before the first parse
    and the second attempt is a Python literal evaluation of the text as
    received.  For a completion whose first choice has the text
    [completion] as its content, the text stripped of the white space of
    [str.strip] is normalized and read as JSON, and what is parsed is
    returned; only if that fails is the stripped text, not normalized,
    evaluated as a Python literal; and if both fail the extractor fails with
    the 500 whose detail quotes the message of the second failure. *)
Theorem criteria_reply_is_normalized_then_parsed
    `{JsonLib} `{AstLib} `{CompletionService}
    (job_text : string) (sent : list request) (completion : string)
    (others : list (option string)) :
  chat_completions_create sent (criteria_request job_text)
  = Returned (Some completion :: others) ->
  (forall parsed,
     json_loads (normalize (strip completion)) = Returned parsed ->
     extract_criteria_from_text job_text sent
     = (Ok parsed, (sent ++ [criteria_request job_text])%list))
  /\ (forall e parsed,
        json_loads (normalize (strip completion)) = Failed e ->
        literal_eval (strip completion) = Returned parsed ->
        extract_criteria_from_text job_text sent
        = (Ok parsed, (sent ++ [criteria_request job_text])%list))
  /\ (forall e e',
        json_loads (normalize (strip completion)) = Failed e ->
        literal_eval (strip completion) = Failed e' ->
        extract_criteria_from_text job_text sent
        = (Raise (HTTPException 500
                    ("Error processing text with OpenAI: " ++ e')),
           (sent ++ [criteria_request job_text])%list)).
Proof.
  intros Hcompletion.
  repeat split; intros; unfold extract_criteria_from_text, bind, create;
    rewrite Hcompletion; cbn iota beta; unfold parse_criteria;
    repeat match goal with Heq : _ = _ |- _ => rewrite Heq end; reflexivity.
Qed.

(** C10 (as amended): every [True] and [False] of the text is respelled
    before any parse, and the returned structure shows it whenever the JSON
    parse succeeds.  The normalized text is the text with every occurrence
    of [True] respelled [true] and every occurrence of [False] respelled
    [false], wherever it stands: at an occurrence the normalized text reads
    [true] (or [false]) between the normalized text before it and the
    normalized text after it.  No occurrence of either substring is left in
    the normalized text, and a text without them is unchanged; the JSON
    reader receives the normalized text and what it parses is returned; when
    it fails, the result is the Python literal evaluation of the text as
    received, whose strings are not altered. *)
Theorem literals_are_respelled_before_json_parse `{JsonLib} `{AstLib}
    (criteria_text : string) :
  normalize criteria_text = respell criteria_text
  /\ (forall a b,
        criteria_text = a ++ "True" ++ b ->
        normalize criteria_text = normalize a ++ "true" ++ normalize b)
  /\ (forall a b,
        criteria_text = a ++ "False" ++ b ->
        normalize criteria_text = normalize a ++ "false" ++ normalize b)
  /\ occurs "True" (normalize criteria_text) = false
  /\ occurs "False" (normalize criteria_text) = false
  /\ (occurs "True" criteria_text = false ->
      occurs "False" criteria_text = false ->
      normalize criteria_text = criteria_text)
  /\ (forall parsed,
        json_loads (normalize criteria_text) = Returned parsed ->
        parse_criteria criteria_text = Returned parsed)
  /\ (forall e,
        json_loads (normalize criteria_text) = Failed e ->
        parse_criteria criteria_text = literal_eval criteria_text).
Proof.
  destruct (normalize_clean criteria_text) as [HTrue HFalse].
  repeat split; auto.
  - apply normalize_respell.
  - intros a b ->. apply normalize_True.
  - intros a b ->. apply normalize_False.
  - intros HT HF. unfold normalize.
    rewrite (replace_absent "True" "true" _ HT).
    now apply replace_absent.
  - intros parsed Hparse. unfold parse_criteria. now rewrite Hparse.
  - intros e Hparse. unfold parse_criteria. now rewrite Hparse.
Qed.

Section Runs.
Import Fixture.

(** C3, counterexample: the completion is a JSON text with [True] inside a
    string.  A strict parse of the raw text succeeds and keeps the string;
    the extractor returns the string respelled. *)
Lemma quoted_True_is_respelled :
  @parse_strict_then_normalized reference_json json_with_True
  = Parsed (VDict [("Must have", VDict [("Team lead", VStr "True")])])
  /\ fst (@extract_criteria_from_text reference_json reference_ast
            (scripted [Returned json_with_True]) "Team lead wanted." [])
     = Ok (VDict [("Must have", VDict [("Team lead", VStr "true")])])
  /\ VStr "true" <> VStr "True".
Proof.
  repeat split; try (vm_compute; reflexivity). discriminate.
Qed.

Lemma criteria_reply_is_normalized_then_parsed_witness :
  @chat_completions_create (scripted [Returned padded_json_with_True]) []
    (criteria_request "Team lead wanted.")
  = Returned [Some padded_json_with_True]
  /\ strip padded_json_with_True = json_with_True
  /\ @extract_criteria_from_text reference_json reference_ast
       (scripted [Returned padded_json_with_True]) "Team lead wanted." []
     = (Ok (VDict [("Must have", VDict [("Team lead", VStr "true")])]),
        [criteria_request "Team lead wanted."]).
Proof.
  split; [reflexivity|split; [reflexivity|]].
  exact (proj1 (@criteria_reply_is_normalized_then_parsed reference_json
                  reference_ast (scripted [Returned padded_json_with_True])
                  "Team lead wanted." [] padded_json_with_True [] eq_refl)
           (VDict [("Must have", VDict [("Team lead", VStr "true")])])
           eq_refl).
Defined.

(** C10, counterexample: the completion is a Python literal.  Its
    normalized text is no JSON, the text as received is evaluated, and the
    criterion name that contains [True] is returned unaltered. *)
Lemma python_literal_keeps_True :
  (exists e, @json_loads reference_json (normalize python_literal) = Failed e)
  /\ fst (@extract_criteria_from_text reference_json reference_ast
            (scripted [Returned python_literal]) "True grit wanted." [])
     = Ok (VDict [("Must have", VDict [("True grit", VBool true)])])
  /\ occurs "True" "True grit" = true.
Proof.
  split; [eexists; vm_compute; reflexivity|].
  split; vm_compute; reflexivity.
Qed.

End Runs.

End ExtractProps.

(** ** More about [src/rank.py] *)
Module RankMore.
Import Rank PyFacts MonadFacts RankProps.

(** *** The score evaluator *)

Section Evaluator.
Context {J : JsonLib} {C : CompletionService}.

(** X1: a completion whose first choice wraps a text between a prefix of
    seven characters and a suffix of three, as the fence of a JSON code
    block does, is scored by that text alone: the evaluator returns what the
    JSON reader makes of it, or the 500 that quotes it.  The characters are
    counted by code point; the wrapped text and the suffix are texts of
    their own, which begin at a character. *)
Theorem fenced_completion_is_unwrapped
    (candidate_name resume_text : string) (criteria_data : value)
    (sent : list request) (pre x suf : string)
    (others : list (option string)) :
  len pre = 7 -> len suf = 3 ->
  boundary x = true -> boundary suf = true ->
  chat_completions_create sent
    (scoring_request candidate_name resume_text criteria_data)
  = Returned (Some (pre ++ x ++ suf) :: others) ->
  get_gpt_scores candidate_name resume_text criteria_data sent
  = (match json_loads x with
     | Returned result => Ok result
     | Failed e =>
         Raise (HTTPException 500
                  ("Error parsing GPT response: " ++ e
                   ++ ". Response was: " ++ x))
     end,
     (sent ++ [scoring_request candidate_name resume_text criteria_data])%list).
Proof.
  intros Hpre Hsuf Hx Hb Hcompletion.
  unfold get_gpt_scores, bind, create. rewrite Hcompletion. cbn iota beta.
  rewrite (slice_fenced pre x suf Hpre Hsuf Hx Hb).
  destruct (json_loads x); reflexivity.
Qed.


End Evaluator.

(** *** The rows *)

Lemma forallb_false {A : Type} (f : A -> bool) (l : list A) :
  forallb f l = false -> exists x, In x l /\ f x = false.
Proof.
  induction l as [|a l IH]; simpl; [discriminate|].
  destruct (f a) eqn:Hfa; simpl.
  - intros H. destruct (IH H) as (x & Hin & Hx). eauto.
  - intros _. eauto.
Qed.

(** The first pair that is neither recorded nor missing stops the filling of
    the row. *)
Lemma fill_row_malformed (gpt_result : value) :
  forall flattened row,
    (exists group crit_key,
       In (group, crit_key) flattened
       /\ entry_of gpt_result group crit_key = Malformed) ->
    exists message,
      fill_row flattened gpt_result row = Raise (AttributeError message).
Proof.
  induction flattened as [|[g0 k0] rest IH]; intros row (g & k & Hin & Hbad).
  - destruct Hin.
  - destruct (entry_of gpt_result g0 k0) eqn:Hentry.
    3: now apply malformed_entry_raises.
    all: assert (Hgood : entry_of gpt_result g0 k0 <> Malformed) by congruence;
      pose proof (cell_lookups gpt_result g0 k0 Hgood) as Hcell;
      rewrite fill_row_cons; unfold and_then in Hcell |- *;
      destruct (get gpt_result "scores" (VDict [])) as [scores|];
        [|discriminate];
      destruct (get scores g0 (VDict [])) as [group_scores|]; [|discriminate];
      rewrite Hcell; apply IH; exists g, k; split; [|exact Hbad];
      destruct Hin as [Heq|Hin]; [congruence|exact Hin].
Qed.

(** Outside those responses the construction of the row raises. *)
Lemma build_row_raises (candidate_name : string)
    (flattened : list (string * string)) (gpt_result : value) :
  score_structure flattened gpt_result = false ->
  exists message,
    build_row candidate_name flattened gpt_result
    = Raise (AttributeError message).
Proof.
  unfold score_structure. intros H. apply andb_false_iff in H as [Hd|Hall].
  - destruct gpt_result; try discriminate;
      destruct flattened as [|[g k] rest]; eexists; reflexivity.
  - apply forallb_false in Hall as ([g k] & Hin & Hentry).
    cbn [fst snd] in Hentry.
    destruct (fill_row_malformed gpt_result flattened [VStr candidate_name])
      as (message & Hfill).
    { exists g, k. split; [exact Hin|].
      destruct (entry_of gpt_result g k); congruence. }
    exists message. unfold build_row. now rewrite Hfill.
Qed.

(** X3: a row is built exactly for the responses that are objects in which
    every flattened pair is recorded or missing; for every other response
    (a list, a [scores] entry or a tier entry that is no object) the
    construction of the row raises an [AttributeError]. *)
Theorem row_is_built_iff_score_structure (candidate_name : string)
    (flattened : list (string * string)) (gpt_result : value) :
  (score_structure flattened gpt_result = true <->
   exists row, build_row candidate_name flattened gpt_result = Ok row)
  /\ (score_structure flattened gpt_result = false <->
      exists message,
        build_row candidate_name flattened gpt_result
        = Raise (AttributeError message)).
Proof.
  split; split.
  - intros Hshape. eexists. now apply build_row_structure.
  - intros (row & Hrow).
    destruct (score_structure flattened gpt_result) eqn:Hs; [reflexivity|].
    destruct (build_row_raises candidate_name _ _ Hs) as (message & Hraise).
    congruence.
  - apply build_row_raises.
  - intros (message & Hraise).
    destruct (score_structure flattened gpt_result) eqn:Hs; [|reflexivity].
    rewrite (build_row_structure _ _ _ Hs) in Hraise. discriminate.
Qed.

(** *** The text of a PDF *)

Lemma concat_cons (x : string) (xs : list string) :
  String.concat EmptyString (x :: xs) = x ++ String.concat EmptyString xs.
Proof.
  destruct xs; simpl; [now rewrite append_empty_r|reflexivity].
Qed.

Lemma pages_fold (pages : list string) :
  forall text,
    fold_left
      (fun text page_text =>
         match page_text with
         | EmptyString => text
         | _ => text ++ page_text ++ LF
         end)
      pages text
    = text
      ++ String.concat EmptyString
           (map (fun p => p ++ LF)
              (filter (fun p => negb (String.eqb p EmptyString)) pages)).
Proof.
  induction pages as [|p pages IH]; intros text; cbn [fold_left filter].
  - simpl. now rewrite append_empty_r.
  - rewrite IH. destruct p as [|c p]; [reflexivity|].
    cbn [String.eqb negb map]. rewrite concat_cons, !append_assoc.
    reflexivity.
Qed.

(** X4: the text of a PDF is made of its pages that have a text, in order,
    each followed by a line feed; pages without text leave no trace, so the
    text is empty exactly when no page has a text.  The reader never fails
    for a file whose pages can be read. *)
Theorem pdf_text_is_pages_with_line_feeds `{DocumentTextSource}
    (uploaded_file : UploadFile) (pages : list string) (sent : list request) :
  PdfReader_pages (file uploaded_file) = Returned pages ->
  exists text,
    extract_text_from_pdf uploaded_file sent = (Ok text, sent)
    /\ text
       = String.concat EmptyString
           (map (fun p => p ++ LF)
              (filter (fun p => negb (String.eqb p EmptyString)) pages))
    /\ (text = EmptyString <-> Forall (fun p => p = EmptyString) pages).
Proof.
  intros Hpages. unfold extract_text_from_pdf. rewrite Hpages.
  eexists. split; [reflexivity|]. rewrite pages_fold. cbn [append].
  split; [reflexivity|].
  clear Hpages. induction pages as [|p pages IH]; cbn [filter].
  - split; auto.
  - destruct p as [|c p]; cbn [String.eqb negb].
    + rewrite IH. split; intros Hall.
      * now constructor.
      * now inversion Hall.
    + cbn [map]. rewrite concat_cons. cbn [append]. split; intros Hall.
      * discriminate.
      * inversion Hall; discriminate.
Qed.

(** *** The loop over the files, again *)

Section Batch.
Context {J : JsonLib} {C : CompletionService} {D : DocumentTextSource}.
Variables (criteria_data : value) (flattened : list (string * string)).

(** What a document reader returns does not depend on the requests sent. *)
Lemma reader_pure (f : UploadFile) (read : M string) :
  reader_of f = Some read ->
  forall sent, read sent = (fst (read []), sent).
Proof.
  unfold reader_of, extract_text_from_pdf, extract_text_from_docx.
  destruct (endswith (lower (filename f)) ".pdf").
  - intros Heq sent. injection Heq as <-.
    now destruct (PdfReader_pages (file f)).
  - destruct (endswith (lower (filename f)) ".docx"); [|discriminate].
    intros Heq sent. injection Heq as <-.
    now destruct (Document_paragraphs (file f)).
Qed.

Lemma resume_text_reader (f : UploadFile) (text : string) :
  resume_text_of f = Some text ->
  exists read,
    reader_of f = Some read /\ forall sent, read sent = (Ok text, sent).
Proof.
  unfold resume_text_of.
  destruct (reader_of f) as [read|] eqn:Hread; [|discriminate].
  destruct (fst (read [])) as [t|e] eqn:Hfst; [|discriminate].
  intros Heq. injection Heq as <-. exists read. split; [reflexivity|].
  intros sent. now rewrite (reader_pure f read Hread sent), Hfst.
Qed.

Lemma get_gpt_scores_sent (candidate_name resume_text : string)
    (sent : list request) :
  snd (get_gpt_scores candidate_name resume_text criteria_data sent)
  = (sent ++ [scoring_request candidate_name resume_text criteria_data])%list.
Proof.
  unfold get_gpt_scores, bind, create. cbn iota beta.
  destruct (chat_completions_create sent
              (scoring_request candidate_name resume_text criteria_data))
    as [[|[text|] others]|e]; cbn; try reflexivity.
  destruct (json_loads (slice text 7 (-3))); reflexivity.
Qed.

(** The requests of one turn of the loop: one if the file has a text, none
    otherwise, whether the turn ends well or not. *)
Lemma loop_body_sent (f : UploadFile) (written : list (list value))
    (sent : list request) :
  snd (loop_body criteria_data flattened written f sent)
  = (sent ++ requests_of criteria_data [f])%list.
Proof.
  unfold requests_of, resume_text_of. cbn [flat_map].
  rewrite app_nil_r. unfold loop_body.
  destruct (reader_of f) as [read|] eqn:Hread; cbn.
  - unfold bind at 1. rewrite (reader_pure f read Hread sent).
    destruct (fst (read [])) as [text|e]; cbn; [|now rewrite app_nil_r].
    unfold bind at 1.
    pose proof (get_gpt_scores_sent (candidate_name_of (filename f)) text sent)
      as Hsent.
    destruct (get_gpt_scores (candidate_name_of (filename f)) text
                criteria_data sent) as [[gpt_result|e] mid];
      cbn [snd] in Hsent; subst mid; [|reflexivity].
    unfold bind, pure_outcome.
    now destruct (build_row (candidate_name_of (filename f)) flattened
                    gpt_result).
  - now rewrite app_nil_r.
Qed.

Lemma requests_of_cons (f : UploadFile) (files : list UploadFile) :
  requests_of criteria_data (f :: files)
  = (requests_of criteria_data [f] ++ requests_of criteria_data files)%list.
Proof. unfold requests_of. cbn [flat_map]. now rewrite app_nil_r. Qed.

(** A loop that ends well has sent the requests of its files, in order. *)
Lemma write_rows_sent (files : list UploadFile) :
  forall written sent written' sent',
    write_rows criteria_data flattened files written sent
    = (Ok written', sent') ->
    sent' = (sent ++ requests_of criteria_data files)%list.
Proof.
  induction files as [|f rest IH]; intros written sent written' sent' Hrun.
  - injection Hrun as _ <-. unfold requests_of. simpl. now rewrite app_nil_r.
  - rewrite write_rows_cons in Hrun.
    apply bind_ok in Hrun as (w & mid & Hbody & Hrest).
    pose proof (loop_body_sent f written sent) as Hmid.
    rewrite Hbody in Hmid. cbn [snd] in Hmid. subst mid.
    rewrite (IH _ _ _ _ Hrest), (requests_of_cons f rest), app_assoc.
    reflexivity.
Qed.

(** Any loop has sent the first of those requests and no other. *)
Lemma write_rows_sent_prefix (files : list UploadFile) :
  forall written sent,
    exists extra rest,
      snd (write_rows criteria_data flattened files written sent)
      = (sent ++ extra)%list
      /\ requests_of criteria_data files = (extra ++ rest)%list.
Proof.
  induction files as [|f tail IH]; intros written sent.
  - exists [], []. cbn. now rewrite app_nil_r.
  - rewrite write_rows_cons, (requests_of_cons f tail). unfold bind.
    pose proof (loop_body_sent f written sent) as Hmid.
    destruct (loop_body criteria_data flattened written f sent)
      as [[w|e] mid]; cbn [snd] in Hmid; subst mid.
    + destruct (IH w (sent ++ requests_of criteria_data [f])%list)
        as (extra & rest & Hsnd & Hreq).
      exists (requests_of criteria_data [f] ++ extra)%list, rest.
      rewrite Hsnd, Hreq, !app_assoc. auto.
    + exists (requests_of criteria_data [f]),
        (requests_of criteria_data tail). auto.
Qed.

Lemma requests_of_bound (files : list UploadFile) :
  List.length (requests_of criteria_data files)
  <= List.length (filter supported files).
Proof.
  induction files as [|f rest IH]; [apply le_n|].
  rewrite (requests_of_cons f rest), length_app. cbn [filter].
  unfold requests_of at 1, resume_text_of. cbn [flat_map].
  destruct (reader_of f) as [read|] eqn:Hread.
  - assert (Hs : supported f = true).
    { destruct (supported f) eqn:Hs; [reflexivity|].
      apply reader_of_none in Hs. congruence. }
    rewrite Hs. destruct (fst (read [])); cbn; lia.
  - cbn. destruct (supported f); cbn; lia.
Qed.

(** The rows a loop adds: one per supported file, each with the name, one
    cell per flattened pair and the total. *)
Lemma write_rows_shape (files : list UploadFile) :
  forall written sent written' sent',
    write_rows criteria_data flattened files written sent
    = (Ok written', sent') ->
    exists rows,
      written' = (written ++ rows)%list
      /\ Forall (fun row => List.length row = List.length flattened + 2) rows
      /\ List.length rows = List.length (filter supported files).
Proof.
  induction files as [|f rest IH]; intros written sent written' sent' Hrun.
  - injection Hrun as <- _. exists []. now rewrite app_nil_r.
  - rewrite write_rows_cons in Hrun.
    apply bind_ok in Hrun as (w & mid & Hbody & Hrest).
    destruct (IH _ _ _ _ Hrest) as (rows & -> & Hall & Hlen).
    cbn [filter].
    destruct (loop_body_ok _ _ _ _ _ _ _ Hbody)
      as [(Hs & -> & _)|(Hs & gpt_result & cells & -> & Hcells)]; rewrite Hs.
    + now exists rows.
    + exists ((VStr (candidate_name_of (filename f)) :: cells
               ++ [reported_total gpt_result]) :: rows)%list.
      rewrite <- app_assoc. repeat split; auto.
      * constructor; [|exact Hall].
        cbn [List.length]. rewrite length_app, Hcells. simpl. lia.
      * simpl. now rewrite Hlen.
Qed.

(** The rows written before a turn of the loop are kept as they are. *)
Lemma loop_body_acc (f : UploadFile) (written : list (list value))
    (sent : list request) :
  loop_body criteria_data flattened written f sent
  = match loop_body criteria_data flattened [] f sent with
    | (Ok rows, mid) => (Ok (written ++ rows)%list, mid)
    | (Raise e, mid) => (Raise e, mid)
    end.
Proof.
  unfold loop_body.
  destruct (reader_of f) as [read|]; [|cbn; now rewrite app_nil_r].
  unfold bind. destruct (read sent) as [[text|e] mid1]; [|reflexivity].
  destruct (get_gpt_scores (candidate_name_of (filename f)) text
              criteria_data mid1) as [[gpt_result|e] mid2]; [|reflexivity].
  unfold pure_outcome.
  now destruct (build_row (candidate_name_of (filename f)) flattened
                  gpt_result).
Qed.

Lemma write_rows_acc (files : list UploadFile) :
  forall written sent,
    write_rows criteria_data flattened files written sent
    = match write_rows criteria_data flattened files [] sent with
      | (Ok rows, mid) => (Ok (written ++ rows)%list, mid)
      | (Raise e, mid) => (Raise e, mid)
      end.
Proof.
  induction files as [|f rest IH]; intros written sent.
  - cbn. now rewrite app_nil_r.
  - rewrite !write_rows_cons. unfold bind.
    rewrite (loop_body_acc f written sent).
    destruct (loop_body criteria_data flattened [] f sent) as [[r|e] mid];
      [|reflexivity].
    rewrite (IH (written ++ r)%list mid), (IH r mid).
    destruct (write_rows criteria_data flattened rest [] mid)
      as [[rows|e] mid']; [|reflexivity].
    now rewrite app_assoc.
Qed.

(** Files of unsupported types only: nothing is written and nothing sent. *)
Lemma write_rows_none_supported (files : list UploadFile) :
  filter supported files = [] ->
  forall written sent,
    write_rows criteria_data flattened files written sent = (Ok written, sent).
Proof.
  induction files as [|f rest IH]; intros Hnone written sent; [reflexivity|].
  cbn [filter] in Hnone. destruct (supported f) eqn:Hs; [discriminate|].
  rewrite write_rows_cons. unfold bind.
  rewrite (loop_body_unsupported criteria_data flattened f written sent Hs).
  now apply IH.
Qed.

End Batch.

(** *** The batch, again *)

Section Report.
Context {J : JsonLib} {C : CompletionService} {D : DocumentTextSource}.

(** X5: the table is rectangular.  In a table returned by [score_resumes]
    the header opens with [Candidate Name], closes with [Total Score] and has
    one label per flattened pair in between; every row has as many cells as
    the header has columns; and there is one row per file of a supported
    type. *)
Theorem table_is_rectangular (criteria : string) (files : list UploadFile)
    (sent sent' : list request) (t : table) :
  score_resumes criteria files sent = (Ok t, sent') ->
  exists items,
    load_criteria criteria = Ok items
    /\ csv_header t
       = ("Candidate Name" :: map label (flat_map pairs_of items)
          ++ ["Total Score"])%list
    /\ Forall (fun row => List.length row = List.length (csv_header t))
         (csv_rows t)
    /\ List.length (csv_rows t) = List.length (filter supported files).
Proof.
  intros Hrun.
  destruct (score_resumes_ok _ _ _ _ _ Hrun) as (items & Hload & Hhead & Hrows).
  destruct (write_rows_shape _ _ _ _ _ _ _ Hrows) as (rows & Heq & Hall & Hlen).
  cbn [app] in Heq. subst rows.
  exists items. repeat split; auto.
  rewrite Hhead. cbn [List.length].
  rewrite length_app, !length_map. cbn [List.length].
  eapply Forall_impl; [|exact Hall]. cbn beta. intros row Hrow. lia.
Qed.

(** X6: one request per candidate, in the order of the upload, and never
    more.  A batch that ends with a table has sent exactly the scoring
    requests of its files that have a text, each with the name taken from the
    file name, the extracted text and the criteria; a batch that ends in any
    other way has sent some first ones of them, so there is no retry and no
    request for a file of an unsupported type. *)
Theorem one_request_per_candidate (criteria : string)
    (files : list UploadFile) (sent : list request) :
  (forall t sent',
     score_resumes criteria files sent = (Ok t, sent') ->
     exists items,
       load_criteria criteria = Ok items
       /\ sent' = (sent ++ requests_of (VDict items) files)%list)
  /\ (exists extra,
        snd (score_resumes criteria files sent) = (sent ++ extra)%list
        /\ List.length extra <= List.length (filter supported files)
        /\ forall items,
             load_criteria criteria = Ok items ->
             exists rest,
               requests_of (VDict items) files = (extra ++ rest)%list).
Proof.
  split.
  - intros t sent' Hrun.
    destruct (score_resumes_ok _ _ _ _ _ Hrun) as (items & Hload & _ & Hrows).
    exists items. split; [exact Hload|].
    now apply (write_rows_sent _ _ _ _ _ _ _ Hrows).
  - destruct (load_criteria criteria) as [items|e] eqn:Hload.
    + rewrite (score_resumes_run _ _ _ _ Hload). unfold bind.
      destruct (write_rows_sent_prefix (VDict items)
                  (flat_map pairs_of items) files [] sent)
        as (extra & rest & Hsnd & Hreq).
      exists extra. repeat split.
      * destruct (write_rows (VDict items) (flat_map pairs_of items) files []
                    sent) as [[rows|e] mid]; exact Hsnd.
      * pose proof (requests_of_bound (VDict items) files) as Hbound.
        rewrite Hreq, length_app in Hbound. lia.
      * intros items' Heq. injection Heq as <-. now exists rest.
    + exists []. unfold score_resumes, bind, pure_outcome. rewrite Hload.
      cbn. rewrite app_nil_r. repeat split; [lia|discriminate].
Qed.

(** X7: the criteria are checked before anything else.  Either the payload
    is a JSON object whose entry [criteria] is an object, or the endpoint
    answers every batch with the same 400 and sends no request, whatever the
    files are. *)
Theorem criteria_are_checked_first (criteria : string) :
  (exists payload items,
     json_loads criteria = Returned (VDict payload)
     /\ lookup "criteria" payload = Some (VDict items)
     /\ load_criteria criteria = Ok items)
  \/ (forall files sent,
        score_resumes criteria files sent = (Raise invalid_criteria, sent)).
Proof.
  unfold score_resumes, bind, pure_outcome, load_criteria.
  destruct (json_loads criteria) as [payload|e] eqn:Hload; [|now right].
  destruct payload as [| | | | | |payload| |]; try now right.
  cbn [get].
  destruct (lookup "criteria" payload) as [w|] eqn:Hget; [|now right].
  destruct w as [| | | | | |items| |]; try now right.
  left. exists payload, items. repeat split; solve [reflexivity|assumption].
Qed.

(** X8: a batch without a file of a supported type, the empty batch among
    them, gives the header alone and sends no request. *)
Theorem batch_without_supported_file (criteria : string)
    (items : list (string * value)) (files : list UploadFile)
    (sent : list request) :
  load_criteria criteria = Ok items ->
  filter supported files = [] ->
  score_resumes criteria files sent
  = (Ok {| csv_header :=
             ("Candidate Name" :: map label (flat_map pairs_of items)
              ++ ["Total Score"])%list;
           csv_rows := [] |},
     sent).
Proof.
  intros Hload Hnone. rewrite (score_resumes_run _ _ _ _ Hload). unfold bind.
  now rewrite (write_rows_none_supported _ _ files Hnone).
Qed.

(** X9: a failure of the completion service for one candidate ends the
    batch.  When the files before the candidate give a table and the service
    fails on the request for the candidate, the batch ends with the 500 that
    quotes the failure; the request counts as sent and the later files are
    not processed. *)
Theorem completion_failure_aborts_batch (criteria : string)
    (items : list (string * value)) (pre post : list UploadFile)
    (f : UploadFile) (text e : string) (sent sent' : list request)
    (t : table) :
  load_criteria criteria = Ok items ->
  score_resumes criteria pre sent = (Ok t, sent') ->
  resume_text_of f = Some text ->
  chat_completions_create sent'
    (scoring_request (candidate_name_of (filename f)) text (VDict items))
  = Failed e ->
  score_resumes criteria (pre ++ f :: post) sent
  = (Raise (HTTPException 500 ("Error calling GPT API: " ++ e)),
     (sent' ++ [scoring_request (candidate_name_of (filename f)) text
                  (VDict items)])%list).
Proof.
  intros Hload Hpre Htext Hfail.
  destruct (score_resumes_ok _ _ _ _ _ Hpre) as (items' & Hload' & _ & Hrows).
  rewrite Hload in Hload'. injection Hload' as <-.
  destruct (resume_text_reader f text Htext) as (read & Hread & Hok).
  rewrite (score_resumes_run _ _ _ _ Hload). unfold bind.
  rewrite write_rows_app. unfold bind. rewrite Hrows.
  rewrite write_rows_cons. unfold bind, loop_body. rewrite Hread.
  unfold bind. rewrite Hok.
  unfold get_gpt_scores, bind, create. now rewrite Hfail.
Qed.

(** X10: a completion that cannot be used for one candidate ends the batch.
    When the files before the candidate give a table and the service answers
    the request for the candidate, the batch ends with the [IndexError] of a
    completion without choices, with the [TypeError] of a first choice whose
    content is [None], with the 500 of the parser if the slice [7:-3] of the
    content, taken by code points, is no JSON, and with an [AttributeError]
    if it is JSON but no object in which every flattened pair is recorded or
    missing.  No handler turns the three errors into an HTTP error; in every
    case the request counts as sent and the later files are not processed. *)
Theorem unusable_completion_aborts_batch (criteria : string)
    (items : list (string * value)) (pre post : list UploadFile)
    (f : UploadFile) (text : string) (choices : list (option string))
    (sent sent' : list request) (t : table) :
  load_criteria criteria = Ok items ->
  score_resumes criteria pre sent = (Ok t, sent') ->
  resume_text_of f = Some text ->
  chat_completions_create sent'
    (scoring_request (candidate_name_of (filename f)) text (VDict items))
  = Returned choices ->
  (choices = [] ->
   score_resumes criteria (pre ++ f :: post) sent
   = (Raise (IndexError "list index out of range"),
      (sent' ++ [scoring_request (candidate_name_of (filename f)) text
                   (VDict items)])%list))
  /\ (forall others,
        choices = None :: others ->
        score_resumes criteria (pre ++ f :: post) sent
        = (Raise (TypeError "'NoneType' object is not subscriptable"),
           (sent' ++ [scoring_request (candidate_name_of (filename f)) text
                        (VDict items)])%list))
  /\ (forall completion others e,
        choices = Some completion :: others ->
        json_loads (slice completion 7 (-3)) = Failed e ->
        score_resumes criteria (pre ++ f :: post) sent
        = (Raise (HTTPException 500
                    ("Error parsing GPT response: " ++ e
                     ++ ". Response was: " ++ slice completion 7 (-3))),
           (sent' ++ [scoring_request (candidate_name_of (filename f)) text
                        (VDict items)])%list))
  /\ (forall completion others gpt_result,
        choices = Some completion :: others ->
        json_loads (slice completion 7 (-3)) = Returned gpt_result ->
        score_structure (flat_map pairs_of items) gpt_result = false ->
        exists message,
          score_resumes criteria (pre ++ f :: post) sent
          = (Raise (AttributeError message),
             (sent' ++ [scoring_request (candidate_name_of (filename f)) text
                          (VDict items)])%list)).
Proof.
  intros Hload Hpre Htext Hcompletion.
  destruct (score_resumes_ok _ _ _ _ _ Hpre) as (items' & Hload' & _ & Hrows).
  rewrite Hload in Hload'. injection Hload' as <-.
  destruct (resume_text_reader f text Htext) as (read & Hread & Hok).
  assert (Hstep : score_resumes criteria (pre ++ f :: post) sent
                  = bind
                      (bind (get_gpt_scores (candidate_name_of (filename f))
                               text (VDict items))
                         (fun gpt_result =>
                            bind (pure_outcome
                                    (build_row (candidate_name_of (filename f))
                                       (flat_map pairs_of items) gpt_result))
                              (fun row => ret (csv_rows t ++ [row])%list)))
                      (fun written =>
                         bind (write_rows (VDict items)
                                 (flat_map pairs_of items) post written)
                           (fun rows =>
                              ret {| csv_header :=
                                       ("Candidate Name"
                                        :: map label (flat_map pairs_of items)
                                        ++ ["Total Score"])%list;
                                     csv_rows := rows |}))
                      sent').
  { rewrite (score_resumes_run _ _ _ _ Hload). unfold bind at 1.
    rewrite write_rows_app. unfold bind at 1. rewrite Hrows.
    rewrite write_rows_cons. unfold bind at 1. unfold loop_body at 1.
    rewrite Hread. unfold bind at 1. rewrite Hok.
    unfold bind.
    destruct (get_gpt_scores (candidate_name_of (filename f)) text
                (VDict items) sent') as [[gpt_result|e] mid]; [|reflexivity].
    unfold pure_outcome.
    destruct (build_row (candidate_name_of (filename f))
                (flat_map pairs_of items) gpt_result); reflexivity. }
  rewrite Hstep. unfold get_gpt_scores, bind, create. rewrite Hcompletion.
  cbn iota beta. repeat split.
  - now intros ->.
  - now intros others ->.
  - intros completion others e -> Hfail. now rewrite Hfail.
  - intros completion others gpt_result -> Hparse Hshape. rewrite Hparse.
    unfold ret, pure_outcome. cbn iota beta.
    destruct (build_row_raises (candidate_name_of (filename f)) _ _ Hshape)
      as (message & ->).
    now exists message.
Qed.

(** X11: batches compose.  When a batch gives a table and a second batch,
    sent after it with the same criteria, gives a table, the two batches
    uploaded as one give the rows of the first followed by the rows of the
    second, after the same requests. *)
Theorem batches_compose (criteria : string) (pre post : list UploadFile)
    (sent mid sent' : list request) (t1 t2 : table) :
  score_resumes criteria pre sent = (Ok t1, mid) ->
  score_resumes criteria post mid = (Ok t2, sent') ->
  score_resumes criteria (pre ++ post) sent
  = (Ok {| csv_header := csv_header t1;
           csv_rows := (csv_rows t1 ++ csv_rows t2)%list |},
     sent').
Proof.
  intros Hpre Hpost.
  destruct (score_resumes_ok _ _ _ _ _ Hpre) as (items & Hload & Hhead & Hrows1).
  destruct (score_resumes_ok _ _ _ _ _ Hpost)
    as (items' & Hload' & _ & Hrows2).
  rewrite Hload in Hload'. injection Hload' as <-.
  rewrite (score_resumes_run _ _ _ _ Hload). unfold bind.
  rewrite write_rows_app. unfold bind. rewrite Hrows1.
  rewrite write_rows_acc, Hrows2, Hhead. reflexivity.
Qed.

End Report.

(** *** Runs on concrete batches *)

Section Runs.
Import Fixture.

Lemma fenced_completion_is_unwrapped_witness :
  len desole = 7
  /\ String.length desole = 9
  /\ len "```" = 3
  /\ @get_gpt_scores reference_json (scripted [scores_after_desole])
       "candidate1" "Five years of Python." (VDict []) []
     = (Ok response_8_total_8,
        [@scoring_request reference_json "candidate1" "Five years of Python."
           (VDict [])]).
Proof.
  split; [reflexivity|split; [reflexivity|split; [reflexivity|]]].
  exact (@fenced_completion_is_unwrapped reference_json
           (scripted [scores_after_desole]) "candidate1"
           "Five years of Python." (VDict []) [] desole json_8_total_8
           "```" [] eq_refl eq_refl eq_refl eq_refl eq_refl).
Defined.

Lemma pdf_text_is_pages_with_line_feeds_witness :
  @PdfReader_pages text_files (file candidate1)
  = Returned ["Five years of Python."]
  /\ exists text,
       @extract_text_from_pdf text_files candidate1 [] = (Ok text, [])
       /\ text = "Five years of Python." ++ LF.
Proof.
  split; [reflexivity|].
  destruct (@pdf_text_is_pages_with_line_feeds text_files candidate1
              ["Five years of Python."] [] eq_refl)
    as (text & Hrun & Htext & _).
  exists text. split; [exact Hrun|exact Htext].
Defined.

Lemma table_is_rectangular_witness :
  fst (run_score_resumes [scores_8_total_8; scores_8_total_5] criteria_python
         [notes; candidate1; candidate2])
  = Ok {| csv_header := header_python;
          csv_rows := [[VStr "candidate1"; VInt 8; VInt 8];
                       [VStr "Jane.Doe.CV"; VInt 8; VInt 5]] |}
  /\ exists items,
       @load_criteria reference_json criteria_python = Ok items
       /\ header_python
          = ("Candidate Name" :: map label (flat_map pairs_of items)
             ++ ["Total Score"])%list
       /\ Forall (fun row => List.length row = List.length header_python)
            [[VStr "candidate1"; VInt 8; VInt 8];
             [VStr "Jane.Doe.CV"; VInt 8; VInt 5]]
       /\ 2 = List.length (filter supported [notes; candidate1; candidate2]).
Proof.
  split; [vm_compute; reflexivity|].
  refine (@table_is_rectangular reference_json
            (scripted [scores_8_total_8; scores_8_total_5]) text_files
            criteria_python [notes; candidate1; candidate2] []
            (snd (run_score_resumes [scores_8_total_8; scores_8_total_5]
                    criteria_python [notes; candidate1; candidate2]))
            {| csv_header := header_python;
               csv_rows := [[VStr "candidate1"; VInt 8; VInt 8];
                            [VStr "Jane.Doe.CV"; VInt 8; VInt 5]] |} _).
  vm_compute. reflexivity.
Defined.

Lemma batch_without_supported_file_witness :
  @load_criteria reference_json criteria_python = Ok items_python
  /\ filter supported [notes] = []
  /\ run_score_resumes [scores_8_total_8] criteria_python [notes]
     = (Ok {| csv_header := header_python; csv_rows := [] |}, []).
Proof.
  split; [reflexivity|split; [reflexivity|]].
  exact (@batch_without_supported_file reference_json
           (scripted [scores_8_total_8]) text_files criteria_python
           items_python [notes] [] eq_refl eq_refl).
Defined.

Lemma completion_failure_aborts_batch_witness :
  @resume_text_of text_files candidate2 = Some "Ten years of Java."
  /\ fst (run_score_resumes [scores_8_total_8] criteria_python
            [candidate1; candidate2; candidate1])
     = Raise (HTTPException 500 "Error calling GPT API: Connection error.").
Proof.
  split; [reflexivity|].
  refine (f_equal fst
            (@completion_failure_aborts_batch reference_json
               (scripted [scores_8_total_8]) text_files criteria_python
               items_python [candidate1] [candidate1] candidate2
               "Ten years of Java." "Connection error." []
               (snd (run_score_resumes [scores_8_total_8] criteria_python
                       [candidate1]))
               {| csv_header := header_python;
                  csv_rows := [[VStr "candidate1"; VInt 8; VInt 8]] |}
               eq_refl _ eq_refl _)).
  - vm_compute. reflexivity.
  - vm_compute. reflexivity.
Defined.

Lemma unusable_completion_aborts_batch_witness :
  @resume_text_of text_files candidate1 = Some ("Five years of Python." ++ LF)
  /\ exists e,
       fst (run_score_resumes [Returned apology] criteria_python
              [candidate1; candidate2])
       = Raise (HTTPException 500
                  ("Error parsing GPT response: " ++ e
                   ++ ". Response was: I cannot score this resu")).
Proof.
  split; [reflexivity|]. exists "Expecting value".
  refine (f_equal fst
            (proj1 (proj2 (proj2
               (@unusable_completion_aborts_batch reference_json
                  (scripted [Returned apology]) text_files criteria_python
                  items_python [] [candidate2] candidate1
                  ("Five years of Python." ++ LF) [Some apology] [] []
                  {| csv_header := header_python; csv_rows := [] |}
                  eq_refl eq_refl eq_refl eq_refl)))
               apology [] "Expecting value" eq_refl eq_refl)).
Defined.

Lemma batches_compose_witness :
  fst (run_score_resumes [scores_8_total_8; scores_8_total_5] criteria_python
         [candidate1; candidate2])
  = Ok {| csv_header := header_python;
          csv_rows := ([[VStr "candidate1"; VInt 8; VInt 8]]
                       ++ [[VStr "Jane.Doe.CV"; VInt 8; VInt 5]])%list |}.
Proof.
  refine (f_equal fst
            (@batches_compose reference_json
               (scripted [scores_8_total_8; scores_8_total_5]) text_files
               criteria_python [candidate1] [candidate2] []
               (snd (run_score_resumes [scores_8_total_8; scores_8_total_5]
                       criteria_python [candidate1]))
               (snd (run_score_resumes [scores_8_total_8; scores_8_total_5]
                       criteria_python [candidate1; candidate2]))
               {| csv_header := header_python;
                  csv_rows := [[VStr "candidate1"; VInt 8; VInt 8]] |}
               {| csv_header := header_python;
                  csv_rows := [[VStr "Jane.Doe.CV"; VInt 8; VInt 5]] |}
               _ _)).
  - vm_compute. reflexivity.
  - vm_compute. reflexivity.
Defined.

End Runs.

End RankMore.

(** ** More about [extract_criteria_from_text] *)
Module ExtractMore.
Import Extract PyFacts MonadFacts ExtractProps.

(** *** Normalization *)

Lemma length_lower (s : string) : String.length (lower s) = String.length s.
Proof. induction s as [|c s IH]; simpl; congruence. Qed.

Section Replace.
Variables (old new : string).

(** A replacement by a text that differs from the replaced one in case only
    changes the case of the text only. *)
Lemma replace_lower (h : ascii) (old' : string) :
  old = String h old' ->
  lower new = lower old ->
  forall n s, String.length s <= n -> lower (replace old new s) = lower s.
Proof.
  intros Hold Hcase. induction n as [|n IH]; intros s Hlen.
  - destruct s; [reflexivity|simpl in Hlen; lia].
  - destruct s as [|c s]; [reflexivity|].
    destruct (prefix old (String c s)) eqn:Hpre.
    + destruct (prefix_split _ _ Hpre) as [rest Heq]. rewrite Heq in Hpre |- *.
      rewrite (replace_match old new h old' rest Hold Hpre), !lower_append,
        Hcase.
      f_equal. apply IH.
      assert (Hl : String.length (String c s) = String.length (old ++ rest))
        by now rewrite Heq.
      rewrite length_append, Hold in Hl. simpl in Hl, Hlen. lia.
    + unfold replace. cbn [replace_from]. rewrite Hpre. cbn [lower].
      f_equal. apply IH. simpl in Hlen. lia.
Qed.

End Replace.

(** X12: normalization changes the case of letters and nothing else: the
    normalized text has the length of the text and the same lower-cased form,
    so every character keeps its place and only a [T] or an [F] can differ;
    and normalizing twice is normalizing once. *)
Theorem normalize_changes_case_only (criteria_text : string) :
  lower (normalize criteria_text) = lower criteria_text
  /\ String.length (normalize criteria_text) = String.length criteria_text
  /\ normalize (normalize criteria_text) = normalize criteria_text.
Proof.
  assert (Hlower : lower (normalize criteria_text) = lower criteria_text).
  { unfold normalize.
    rewrite (replace_lower "False" "false" "F" "alse" eq_refl eq_refl
               _ _ (le_n _)).
    apply (replace_lower "True" "true" "T" "rue" eq_refl eq_refl _ _ (le_n _)). }
  split; [exact Hlower|split].
  - now rewrite <- (length_lower (normalize criteria_text)), Hlower,
      length_lower.
  - destruct (normalize_clean criteria_text) as [HTrue HFalse].
    unfold normalize at 1.
    rewrite (replace_absent "True" "true" _ HTrue).
    now apply replace_absent.
Qed.

(** *** The extractor *)

Section Extractor.
Context {J : JsonLib} {A : AstLib} {C : CompletionService}.

Lemma extractor_sent (job_text : string) (sent : list request) :
  snd (extract_criteria_from_text job_text sent)
  = (sent ++ [criteria_request job_text])%list.
Proof.
  unfold extract_criteria_from_text, bind, create. cbn iota beta.
  destruct (chat_completions_create sent (criteria_request job_text))
    as [[|[text|] others]|e]; cbn; try reflexivity.
  destruct (parse_criteria (strip text)); reflexivity.
Qed.

Lemma extractor_outcomes (job_text : string) (sent : list request) :
  (exists parsed, fst (extract_criteria_from_text job_text sent) = Ok parsed)
  \/ (exists e,
        fst (extract_criteria_from_text job_text sent)
        = Raise (HTTPException 500
                   ("Error processing text with OpenAI: " ++ e))).
Proof.
  unfold extract_criteria_from_text, bind, create. cbn iota beta.
  destruct (chat_completions_create sent (criteria_request job_text))
    as [[|[text|] others]|e]; cbn; eauto.
  destruct (parse_criteria (strip text)); cbn; eauto.
Qed.

(** X13: the extractor sends exactly one request, whether it returns or
    raises; a failure of the completion service is answered with the 500
    that quotes it, like a failure of both parsers; and nothing but such a
    500 is ever raised. *)
Theorem extractor_sends_one_request (job_text : string)
    (sent : list request) :
  snd (extract_criteria_from_text job_text sent)
  = (sent ++ [criteria_request job_text])%list
  /\ (forall e,
        chat_completions_create sent (criteria_request job_text) = Failed e ->
        fst (extract_criteria_from_text job_text sent)
        = Raise (HTTPException 500
                   ("Error processing text with OpenAI: " ++ e)))
  /\ ((exists parsed,
         fst (extract_criteria_from_text job_text sent) = Ok parsed)
      \/ (exists e,
            fst (extract_criteria_from_text job_text sent)
            = Raise (HTTPException 500
                       ("Error processing text with OpenAI: " ++ e)))).
Proof.
  split; [apply extractor_sent|split; [|apply extractor_outcomes]].
  intros e Hfail. unfold extract_criteria_from_text, bind, create.
  cbn iota beta. now rewrite Hfail.
Qed.

End Extractor.

End ExtractMore.

(** ** The endpoint of [src/extract.py] *)
Module EndpointProps.
Import Endpoint PyFacts MonadFacts ExtractMore.

Section Endpoint.
Context {J : JsonLib} {A : AstLib} {C : CompletionService}
        {D : DocumentTextSource} {W : WebFramework} {T : TempFiles}.

(** The endpoint for an upload of an allowed type, step by step. *)
Lemma extract_criteria_allowed (file : UploadFile) (w : world) :
  type_allowed file = true ->
  extract_criteria file w
  = match read_job_text file w with
    | (Raise e, w1) =>
        (Raise (HTTPException 500 ("Error reading the file: " ++ str e)), w1)
    | (Ok job_text, w1) =>
        match strip job_text with
        | EmptyString =>
            (Raise (HTTPException 400
                      "The uploaded file is empty or text could not be extracted."),
             w1)
        | _ =>
            match Extract.extract_criteria_from_text job_text (sent w1) with
            | (Ok criteria, sent') =>
                (match JSONResponse_error (VDict [("criteria", criteria)]) with
                 | None => Ok (VDict [("criteria", criteria)])
                 | Some e => Raise e
                 end,
                 {| sent := sent'; disk := disk w1 |})
            | (Raise e, sent') =>
                (Raise e, {| sent := sent'; disk := disk w1 |})
            end
        end
    end.
Proof.
  intros Hallowed. unfold extract_criteria. rewrite Hallowed. cbn [negb].
  unfold bind_io at 1. unfold except.
  destruct (read_job_text file w) as [[job_text|e] w1]; [|reflexivity].
  destruct (strip job_text); [reflexivity|].
  unfold bind_io, with_requests.
  destruct (Extract.extract_criteria_from_text job_text (sent w1))
    as [[criteria|e] sent']; [|reflexivity].
  now destruct (JSONResponse_error (VDict [("criteria", criteria)])).
Qed.

(** Reading the job description sends nothing. *)
Lemma read_job_text_sent (file : UploadFile) (w : world) :
  sent (snd (read_job_text file w)) = sent w.
Proof.
  unfold read_job_text, extract_text_from_pdf, extract_text_from_docx.
  destruct (filename file) as [name|]; [|reflexivity].
  destruct (endswith (lower name) ".pdf").
  - now destruct (PdfReader_pages (contents file)).
  - destruct (endswith (lower name) ".docx"); [|reflexivity].
    now destruct (Document_paragraphs (contents file)).
Qed.

(** Unlinking the file that was just created under a new name leaves the
    files that were there. *)
Lemma unlink_new (path : string) (bytes : list Byte.byte)
    (files : list (string * list Byte.byte)) :
  ~ In path (map fst files) ->
  unlink path (files ++ [(path, bytes)])%list = files.
Proof.
  intros Hnew. unfold unlink. rewrite filter_app. cbn [filter fst].
  rewrite String.eqb_refl. cbn [negb]. rewrite app_nil_r.
  induction files as [|[name b] files IH]; [reflexivity|].
  cbn [filter fst]. cbn [map fst In] in Hnew.
  destruct (String.eqb_spec name path) as [->|_].
  - exfalso. apply Hnew. now left.
  - cbn [negb]. f_equal. apply IH. intros Hin. apply Hnew. now right.
Qed.

(** X14: whatever is uploaded, the endpoint answers with an object that has
    the one key [criteria], with one of its two 400s, with a 500, or with the
    exception [JSONResponse] raises on extracted criteria it cannot render,
    which no handler catches.  An upload of a type that is not allowed gets
    the 400 at once, before anything is read, written or sent.  The response
    is the object exactly when the extractor returns criteria that the
    response renders, and nothing else leaves the endpoint. *)
Theorem endpoint_outcomes (file : UploadFile) (w : world) :
  (type_allowed file = false ->
   extract_criteria file w
   = (Raise (HTTPException 400
               "Invalid file type. Only PDF and DOCX are supported."), w))
  /\ ((exists criteria,
         JSONResponse_error (VDict [("criteria", criteria)]) = None
         /\ fst (extract_criteria file w) = Ok (VDict [("criteria", criteria)]))
      \/ fst (extract_criteria file w)
         = Raise (HTTPException 400
                    "Invalid file type. Only PDF and DOCX are supported.")
      \/ fst (extract_criteria file w)
         = Raise (HTTPException 400
                    "The uploaded file is empty or text could not be extracted.")
      \/ (exists detail,
            fst (extract_criteria file w) = Raise (HTTPException 500 detail))
      \/ (exists criteria e,
            JSONResponse_error (VDict [("criteria", criteria)]) = Some e
            /\ fst (extract_criteria file w) = Raise e)).
Proof.
  split.
  - intros Hno. unfold extract_criteria. now rewrite Hno.
  - destruct (type_allowed file) eqn:Hallowed.
    + rewrite (extract_criteria_allowed file w Hallowed).
      destruct (read_job_text file w) as [[job_text|e] w1]; cbn [fst];
        [|right; right; right; left; eauto].
      destruct (strip job_text); cbn [fst]; [right; right; left; reflexivity|].
      pose proof (extractor_outcomes job_text (sent w1)) as Hout.
      destruct (Extract.extract_criteria_from_text job_text (sent w1))
        as [[criteria|e] sent']; cbn [fst] in Hout |- *.
      * destruct (JSONResponse_error (VDict [("criteria", criteria)]))
          as [e|] eqn:Hrender.
        -- do 4 right. eauto.
        -- left. eauto.
      * right. right. right. left.
        destruct Hout as [(parsed & Hp)|(e' & He)]; [discriminate|].
        injection He as ->. eauto.
    + right. left. unfold extract_criteria. now rewrite Hallowed.
Qed.

(** X15: every failure while the upload is read comes out as a 500.  For an
    upload of an allowed type, the 400 raised for a name that ends in
    neither [.pdf] nor [.docx], the 500 of a document reader and the error of
    a missing file name are all caught and answered with a 500 whose detail
    is [Error reading the file: ] followed by the text of the exception; in
    none of these cases is a request sent. *)
Theorem read_errors_become_500 (file : UploadFile) (w : world) :
  type_allowed file = true ->
  (forall e w1,
     read_job_text file w = (Raise e, w1) ->
     extract_criteria file w
     = (Raise (HTTPException 500 ("Error reading the file: " ++ str e)), w1)
     /\ sent w1 = sent w)
  /\ (forall name,
        filename file = Some name ->
        endswith (lower name) ".pdf" = false ->
        endswith (lower name) ".docx" = false ->
        extract_criteria file w
        = (Raise (HTTPException 500
                    ("Error reading the file: "
                     ++ HTTPException_str 400
                          "Unsupported file extension. Only PDF and DOCX are supported.")),
           w))
  /\ (forall name e,
        filename file = Some name ->
        endswith (lower name) ".pdf" = true ->
        PdfReader_pages (contents file) = Failed e ->
        extract_criteria file w
        = (Raise (HTTPException 500
                    ("Error reading the file: "
                     ++ HTTPException_str 500 ("Error reading PDF file: " ++ e))),
           w))
  /\ (filename file = None ->
      extract_criteria file w
      = (Raise (HTTPException 500
                  "Error reading the file: 'NoneType' object has no attribute 'lower'"),
         w)).
Proof.
  intros Hallowed. rewrite (extract_criteria_allowed file w Hallowed).
  repeat split.
  - now rewrite H.
  - pose proof (read_job_text_sent file w) as Hsent. now rewrite H in Hsent.
  - intros name Hname Hpdf Hdocx. unfold read_job_text.
    now rewrite Hname, Hpdf, Hdocx.
  - intros name e Hname Hpdf Hfail.
    unfold read_job_text, extract_text_from_pdf.
    now rewrite Hname, Hpdf, Hfail.
  - intros Hname. unfold read_job_text. now rewrite Hname.
Qed.

(** X16: a job description without text is refused before the completion
    service is asked.  When the text read from an upload of an allowed type
    is empty or blank, that is, nothing is left of it once the white space of
    [str.strip] is removed, the no-break space and the other white space
    beyond ASCII included, the endpoint answers with its 400 and no request
    is sent. *)
Theorem blank_job_text_is_refused (file : UploadFile) (w w1 : world)
    (job_text : string) :
  type_allowed file = true ->
  read_job_text file w = (Ok job_text, w1) ->
  strip job_text = EmptyString ->
  extract_criteria file w
  = (Raise (HTTPException 400
              "The uploaded file is empty or text could not be extracted."),
     w1)
  /\ sent w1 = sent w.
Proof.
  intros Hallowed Hread Hblank.
  rewrite (extract_criteria_allowed file w Hallowed), Hread, Hblank.
  split; [reflexivity|].
  pose proof (read_job_text_sent file w) as Hsent. now rewrite Hread in Hsent.
Qed.

(** X17: at most one request per upload.  After the endpoint the requests
    sent are those sent before, or those and the one request of the
    extractor for a job text that is not blank. *)
Theorem endpoint_sends_at_most_one_request (file : UploadFile) (w : world) :
  sent (snd (extract_criteria file w)) = sent w
  \/ exists job_text,
       strip job_text <> EmptyString
       /\ sent (snd (extract_criteria file w))
          = (sent w ++ [Extract.criteria_request job_text])%list.
Proof.
  destruct (type_allowed file) eqn:Hallowed.
  - rewrite (extract_criteria_allowed file w Hallowed).
    pose proof (read_job_text_sent file w) as Hsent.
    destruct (read_job_text file w) as [[job_text|e] w1]; cbn [snd] in Hsent |- *;
      [|now left].
    destruct (strip job_text) eqn:Hstrip; [now left|].
    right. exists job_text. split; [congruence|].
    pose proof (extractor_sent job_text (sent w1)) as Hreq.
    destruct (Extract.extract_criteria_from_text job_text (sent w1))
      as [[criteria|e] sent']; cbn [snd sent] in Hreq |- *; congruence.
  - left. unfold extract_criteria. now rewrite Hallowed.
Qed.

(** X18: the temporary file of a DOCX upload is removed only when the
    document can be read.  For an upload of an allowed type that is read as
    DOCX into a temporary file of a new name: if the reader raises, the
    endpoint answers with a 500 and the temporary file, holding the bytes of
    the upload, stays on disk; if the reader returns, the disk is afterwards
    as it was before. *)
Theorem temporary_file_is_kept_on_failure (file : UploadFile) (w : world)
    (name : string) :
  type_allowed file = true ->
  filename file = Some name ->
  endswith (lower name) ".pdf" = false ->
  endswith (lower name) ".docx" = true ->
  ~ In (temporary_name (map fst (disk w))) (map fst (disk w)) ->
  (forall e,
     Document_paragraphs (contents file) = Failed e ->
     extract_criteria file w
     = (Raise (HTTPException 500
                 ("Error reading the file: "
                  ++ HTTPException_str 500 ("Error reading DOCX file: " ++ e))),
        {| sent := sent w;
           disk := (disk w
                    ++ [(temporary_name (map fst (disk w)), contents file)])%list |}))
  /\ (forall paragraphs,
        Document_paragraphs (contents file) = Returned paragraphs ->
        disk (snd (extract_criteria file w)) = disk w).
Proof.
  intros Hallowed Hname Hpdf Hdocx Hnew.
  rewrite (extract_criteria_allowed file w Hallowed).
  unfold read_job_text, extract_text_from_docx.
  rewrite Hname, Hpdf, Hdocx. split.
  - intros e Hfail. now rewrite Hfail.
  - intros paragraphs Hread. rewrite Hread. cbn [sent disk].
    rewrite (unlink_new _ _ _ Hnew).
    destruct (strip (join LF paragraphs)); [reflexivity|].
    now destruct (Extract.extract_criteria_from_text (join LF paragraphs)
                    (sent w)) as [[criteria|e] sent'].
Qed.

(** X19: from the upload to the response.  When the text read from an upload
    of an allowed type is not blank, the first choice of the completion for
    the request of the extractor has a text as its content, and the stripped
    text parses, the endpoint has sent that one request and responds with
    the object whose key [criteria] holds what was parsed if [JSONResponse]
    renders it, and raises the exception of the rendering if not. *)
Theorem upload_to_criteria (file : UploadFile) (w w1 : world)
    (job_text completion : string) (others : list (option string))
    (criteria : value) :
  type_allowed file = true ->
  read_job_text file w = (Ok job_text, w1) ->
  strip job_text <> EmptyString ->
  chat_completions_create (sent w1) (Extract.criteria_request job_text)
  = Returned (Some completion :: others) ->
  Extract.parse_criteria (strip completion) = Returned criteria ->
  extract_criteria file w
  = (match JSONResponse_error (VDict [("criteria", criteria)]) with
     | None => Ok (VDict [("criteria", criteria)])
     | Some e => Raise e
     end,
     {| sent := (sent w ++ [Extract.criteria_request job_text])%list;
        disk := disk w1 |}).
Proof.
  intros Hallowed Hread Hjob Hcompletion Hparse.
  rewrite (extract_criteria_allowed file w Hallowed), Hread.
  pose proof (read_job_text_sent file w) as Hsent.
  rewrite Hread in Hsent. cbn [snd] in Hsent.
  destruct (strip job_text); [congruence|].
  unfold Extract.extract_criteria_from_text, bind, create.
  rewrite Hcompletion. cbn iota beta. rewrite Hparse. cbn.
  now rewrite Hsent.
Qed.

(** The response of the endpoint is an object with the one key
    [criteria]. *)
Lemma response_shape (file : UploadFile) (w w' : world) (content : value) :
  extract_criteria file w = (Ok content, w') ->
  exists criteria, content = VDict [("criteria", criteria)].
Proof.
  destruct (type_allowed file) eqn:Hallowed.
  - rewrite (extract_criteria_allowed file w Hallowed).
    destruct (read_job_text file w) as [[job_text|e] w1]; [|discriminate].
    destruct (strip job_text); [discriminate|].
    destruct (Extract.extract_criteria_from_text job_text (sent w1))
      as [[criteria|e] sent']; [|discriminate].
    destruct (JSONResponse_error (VDict [("criteria", criteria)]));
      [discriminate|].
    intros Heq. injection Heq as <- _. now exists criteria.
  - unfold extract_criteria. rewrite Hallowed. discriminate.
Qed.

(** X20: the response of [/extract-criteria] is a criteria payload of
    [/score-resumes].  Given as the form field [criteria], a JSON text of the
    response is accepted exactly when the extracted criteria are an object,
    and then the criteria of the batch are those that were extracted;
    otherwise every batch is answered with the 400 of an invalid criteria
    format. *)
Theorem response_feeds_score_resumes (file : UploadFile) (w w' : world)
    (content : value) (text : string) :
  extract_criteria file w = (Ok content, w') ->
  json_loads text = Returned content ->
  exists criteria,
    content = VDict [("criteria", criteria)]
    /\ (forall items,
          criteria = VDict items -> Rank.load_criteria text = Ok items)
    /\ (is_dict criteria = false ->
        forall files sent,
          Rank.score_resumes text files sent
          = (Raise Rank.invalid_criteria, sent)).
Proof.
  intros Hrun Hjson.
  destruct (response_shape _ _ _ _ Hrun) as (criteria & ->).
  exists criteria. split; [reflexivity|split].
  - intros items ->. unfold Rank.load_criteria. rewrite Hjson. reflexivity.
  - intros Hno files sent0.
    unfold Rank.score_resumes, bind, pure_outcome, Rank.load_criteria.
    rewrite Hjson. cbn [get lookup String.eqb Ascii.eqb Bool.eqb].
    destruct criteria; try reflexivity. discriminate.
Qed.

End Endpoint.

Section Runs.
Import Fixture.

Lemma read_errors_become_500_witness :
  type_allowed job_txt = true
  /\ run_extract_criteria [Returned criteria_completion] job_txt
     = (Raise (HTTPException 500
                 "Error reading the file: 400: Unsupported file extension. Only PDF and DOCX are supported."),
        fresh_world).
Proof.
  split; [reflexivity|].
  exact (proj1 (proj2
           (@read_errors_become_500 reference_json reference_ast
              (scripted [Returned criteria_completion]) text_files starlette
              numbered_temp job_txt fresh_world eq_refl))
           "job.txt" eq_refl eq_refl eq_refl).
Defined.

Lemma blank_job_text_is_refused_witness :
  type_allowed blank_pdf = true
  /\ strip (" " ++ no_break_space ++ ideographic_space ++ LF) = EmptyString
  /\ run_extract_criteria [Returned criteria_completion] blank_pdf
     = (Raise (HTTPException 400
                 "The uploaded file is empty or text could not be extracted."),
        fresh_world).
Proof.
  split; [reflexivity|split; [reflexivity|]].
  exact (proj1
           (@blank_job_text_is_refused reference_json reference_ast
              (scripted [Returned criteria_completion]) text_files starlette
              numbered_temp blank_pdf fresh_world fresh_world
              (" " ++ no_break_space ++ ideographic_space ++ LF)
              eq_refl eq_refl eq_refl)).
Defined.

Lemma temporary_file_is_kept_on_failure_witness :
  @Document_paragraphs text_files (contents broken_docx)
  = Failed "File is not a zip file"
  /\ run_extract_criteria [Returned criteria_completion] broken_docx
     = (Raise (HTTPException 500
                 "Error reading the file: 500: Error reading DOCX file: File is not a zip file"),
        {| sent := [];
           disk := [("/tmp/tmp0.docx", contents broken_docx)] |}).
Proof.
  split; [reflexivity|].
  refine (proj1
            (@temporary_file_is_kept_on_failure reference_json reference_ast
               (scripted [Returned criteria_completion]) text_files starlette
               numbered_temp broken_docx fresh_world "job.docx"
               eq_refl eq_refl eq_refl eq_refl _)
            "File is not a zip file" eq_refl).
  simpl. tauto.
Defined.

Lemma upload_to_criteria_witness :
  type_allowed job_pdf = true
  /\ run_extract_criteria [Returned criteria_completion] job_pdf
     = (Ok (VDict [("criteria", criteria_parsed)]),
        {| sent := [Extract.criteria_request
                      ("Python developer wanted." ++ LF)];
           disk := [] |}).
Proof.
  split; [reflexivity|].
  refine (@upload_to_criteria reference_json reference_ast
            (scripted [Returned criteria_completion]) text_files starlette
            numbered_temp job_pdf fresh_world fresh_world
            ("Python developer wanted." ++ LF) criteria_completion []
            criteria_parsed eq_refl eq_refl _ eq_refl eq_refl).
  vm_compute. discriminate.
Defined.

(** Criteria that hold a float out of range, as [json.loads] reads them from
    [Infinity], are extracted and then stop the response. *)
Example criteria_out_of_range_stop_the_response :
  @extract_criteria reads_infinity reference_ast
    (scripted [Returned criteria_completion]) text_files starlette
    numbered_temp job_pdf fresh_world
  = (Raise (ValueError "Out of range float values are not JSON compliant"),
     {| sent := [Extract.criteria_request
                   ("Python developer wanted." ++ LF)];
        disk := [] |}).
Proof. vm_compute. reflexivity. Qed.

Lemma response_feeds_score_resumes_witness :
  fst (run_extract_criteria [Returned criteria_completion] job_pdf)
  = Ok (VDict [("criteria", criteria_parsed)])
  /\ exists criteria,
       VDict [("criteria", criteria_parsed)] = VDict [("criteria", criteria)]
       /\ @Rank.load_criteria reference_json
            (Reference.dumps (VDict [("criteria", criteria_parsed)]))
          = Ok [("Must have", VDict [("Python", VStr "2")]);
                ("Good to have", VDict []);
                ("Nice to have", VDict [])].
Proof.
  split; [vm_compute; reflexivity|].
  destruct (@response_feeds_score_resumes reference_json reference_ast
              (scripted [Returned criteria_completion]) text_files starlette
              numbered_temp job_pdf fresh_world
              (snd (run_extract_criteria [Returned criteria_completion]
                      job_pdf))
              (VDict [("criteria", criteria_parsed)])
              (Reference.dumps (VDict [("criteria", criteria_parsed)])))
    as (criteria & Hshape & Haccepted & _).
  - vm_compute. reflexivity.
  - vm_compute. reflexivity.
  - exists criteria. split; [exact Hshape|].
    apply Haccepted. now injection Hshape as <-.
Defined.

End Runs.

End EndpointProps.
